(** * Parcel-level flood risk (NYC): the three MongoDB loaders

    A shallow embedding of [load_csv_to_mongo.py],
    [load_geojson_to_mongo.py] and [load_wkt_csv_to_mongo.py], and the
    properties of their record transformers, batchers and configuration.

    Conventions of the embedding.
    - A Python [str] is a [string]; each [ascii] stands for the code point
      of the same number (U+0000 to U+00FF).  The character classes below
      are the ones CPython uses on that range.
    - A Python exception is a constructor of [exn]; code that can raise
      returns a [result].  A generator is the list of what it yields
      together with the exception that ended it, if any.
    - A Python [float] is a [spec_float] at binary64 (precision 53,
      [emax] 1024); decimal literals are rounded to nearest, ties to even.
    - A Python [dict] with string keys is a [gmap string _]. *)

From Stdlib Require Import ZArith NArith String Ascii List Bool Lia.
From Stdlib Require Import Floats.SpecFloat Floats.PrimFloat Floats.FloatOps.
From stdpp Require Import gmap strings list.

Set Warnings "-register-all".
Local Open Scope string_scope.

(** ** The Python runtime the loaders rely on *)

Module Py.

(** *** Exceptions and results *)

Inductive exn :=
  | ValueError
  | EnvironmentError
  | WKTReadingError
  | CRSError
  | JSONDecodeError
  | BulkWriteError.

Inductive result (A : Type) :=
  | Ok (a : A)
  | Raise (e : exn).
Arguments Ok {A} a.
Arguments Raise {A} e.

Definition bind {A B} (r : result A) (k : A -> result B) : result B :=
  match r with
  | Ok a => k a
  | Raise e => Raise e
  end.

(** [try: body except <handler>] *)
Definition try_except {A} (body : result A) (handler : exn -> result A) : result A :=
  match body with
  | Ok a => Ok a
  | Raise e => handler e
  end.

(** A generator run to its end: what it yielded, and the exception that
    stopped it ([None] when it returned). *)
Definition gen (A : Type) : Type := list A * option exn.

(** *** Character classes (code points below 256) *)

Definition code (c : ascii) : N := N_of_ascii c.

Definition in_range (lo hi : N) (c : ascii) : bool :=
  ((lo <=? code c) && (code c <=? hi))%N.

Definition is_code (n : N) (c : ascii) : bool := (code c =? n)%N.

(** [Py_UNICODE_ISSPACE]: what [str.strip()] removes and what [\s] matches. *)
Definition isspace_char (c : ascii) : bool :=
  in_range 9 13 c || in_range 28 32 c || is_code 133 c || is_code 160 c.

(** Decimal digits [0-9], the only ones [int()] and [float()] read. *)
Definition isdecimal_char (c : ascii) : bool := in_range 48 57 c.

(** [str.isdigit] also accepts the superscript digits. *)
Definition isdigit_char (c : ascii) : bool :=
  isdecimal_char c || is_code 178 c || is_code 179 c || is_code 185 c.

(** [str.isnumeric] adds the vulgar fractions. *)
Definition isnumeric_char (c : ascii) : bool :=
  isdigit_char c || in_range 188 190 c.

Definition isalpha_char (c : ascii) : bool :=
  in_range 65 90 c || in_range 97 122 c
  || is_code 170 c || is_code 181 c || is_code 186 c
  || in_range 192 214 c || in_range 216 246 c || in_range 248 255 c.

(** [Py_UNICODE_ISALNUM] *)
Definition isalnum_char (c : ascii) : bool :=
  isalpha_char c || isdecimal_char c || isdigit_char c || isnumeric_char c.

Definition lower_char (c : ascii) : ascii :=
  if in_range 65 90 c || in_range 192 214 c || in_range 216 222 c
  then ascii_of_N (code c + 32)
  else c.

(** The upper-case form of one character, as code points: three characters
    of the range map outside it or to two characters. *)
Definition upper_char (c : ascii) : list N :=
  if in_range 97 122 c || in_range 224 246 c || in_range 248 254 c
  then [(code c - 32)%N]
  else if is_code 223 c then [83%N; 83%N]
  else if is_code 255 c then [376%N]
  else if is_code 181 c then [924%N]
  else [code c].

(** *** [str] methods *)

Fixpoint lstrip_by (p : ascii -> bool) (s : string) : string :=
  match s with
  | EmptyString => EmptyString
  | String c r => if p c then lstrip_by p r else s
  end.

Fixpoint rstrip_by (p : ascii -> bool) (s : string) : string :=
  match s with
  | EmptyString => EmptyString
  | String c r =>
      match rstrip_by p r with
      | EmptyString => if p c then EmptyString else String c EmptyString
      | r' => String c r'
      end
  end.

Definition strip_by (p : ascii -> bool) (s : string) : string :=
  rstrip_by p (lstrip_by p s).

(** [s.strip()] *)
Definition strip (s : string) : string := strip_by isspace_char s.

Fixpoint map_str (f : ascii -> ascii) (s : string) : string :=
  match s with
  | EmptyString => EmptyString
  | String c r => String (f c) (map_str f r)
  end.

Fixpoint filter_str (p : ascii -> bool) (s : string) : string :=
  match s with
  | EmptyString => EmptyString
  | String c r => if p c then String c (filter_str p r) else filter_str p r
  end.

Fixpoint forallb_str (p : ascii -> bool) (s : string) : bool :=
  match s with
  | EmptyString => true
  | String c r => p c && forallb_str p r
  end.

(** [s.lower()] *)
Definition lower (s : string) : string := map_str lower_char s.

(** The code points of a string. *)
Fixpoint codes (s : string) : list N :=
  match s with
  | EmptyString => []
  | String c r => code c :: codes r
  end.

(** [s.upper()], as code points. *)
Fixpoint upper (s : string) : list N :=
  match s with
  | EmptyString => []
  | String c r => upper_char c ++ upper r
  end.

(** [s.isdigit()]: at least one character, all of them digits. *)
Definition isdigit (s : string) : bool :=
  negb (String.eqb s "") && forallb_str isdigit_char s.

(** [s.startswith(p)] *)
Definition startswith (s p : string) : bool := String.prefix p s.

(** [len(s)] *)
Definition len (s : string) : Z := Z.of_nat (String.length s).

(** [s.replace(old, new)] for a pattern [old] of one character. *)
Fixpoint replace (old : ascii) (new : string) (s : string) : string :=
  match s with
  | EmptyString => EmptyString
  | String c r =>
      if Ascii.eqb c old then new ++ replace old new r
      else String c (replace old new r)
  end.

(** *** [int(s)] and [float(s)] on strings

    Both builtins first drop leading and trailing white space, which for
    them is tab to carriage return and the space (the two other white-space
    characters of the range, U+0085 and U+00A0, are turned into spaces
    beforehand); the separators U+001C to U+001F are not dropped.  An
    underscore may stand between two digits.  Any failure is a
    [ValueError].  [int()] also refuses a string with more digits than the
    interpreter allows, a setting of the interpreter; [float()] has no such
    limit. *)

(** The settings of the interpreter that the results of the loaders depend
    on: [sys.get_int_max_str_digits()], which is 0 when there is no limit
    (as in the versions of CPython before the limit existed). *)
Class Runtime := {
  int_max_str_digits : N
}.

(** CPython as it starts: a limit of 4300 digits. *)
Definition cpython_default : Runtime := {| int_max_str_digits := 4300 |}.

(** Whether [int()] refuses a string for its number of digits (signs and
    underscores not counted): the limit is looked at above 640 digits, and
    applies when it is not 0. *)
Definition over_digit_limit `{Runtime} (digits : N) : bool :=
  ((640 <? digits) && (0 <? int_max_str_digits) && (int_max_str_digits <? digits))%N.

Definition isspace_num (c : ascii) : bool :=
  in_range 9 13 c || is_code 32 c || is_code 133 c || is_code 160 c.

(** Checks the placing of underscores and removes them; [prev] is the
    character before [s]. *)
Fixpoint drop_underscores (prev : ascii) (s : string) : option string :=
  match s with
  | EmptyString => if Ascii.eqb prev "_" then None else Some EmptyString
  | String c r =>
      if Ascii.eqb c "_" then
        if isdecimal_char prev then drop_underscores c r else None
      else if Ascii.eqb prev "_" && negb (isdecimal_char c) then None
      else option_map (String c) (drop_underscores c r)
  end.

Definition split_sign (s : string) : bool * string :=
  match s with
  | String "-" r => (true, r)
  | String "+" r => (false, r)
  | _ => (false, s)
  end.

(** The longest prefix of decimal digits, and the rest. *)
Fixpoint span_digits (s : string) : string * string :=
  match s with
  | EmptyString => (EmptyString, EmptyString)
  | String c r =>
      if isdecimal_char c
      then let (d, t) := span_digits r in (String c d, t)
      else (EmptyString, s)
  end.

Fixpoint digits_value (acc : N) (s : string) : N :=
  match s with
  | EmptyString => acc
  | String c r => digits_value (10 * acc + (code c - 48))%N r
  end.

Definition py_int `{Runtime} (s : string) : result Z :=
  let (neg, body) := split_sign (strip_by isspace_num s) in
  match drop_underscores "000" body with
  | None => Raise ValueError
  | Some ds =>
      if negb (String.eqb ds "") && forallb_str isdecimal_char ds
      then if over_digit_limit (N.of_nat (String.length ds))
           then Raise ValueError
           else let n := Z.of_N (digits_value 0 ds) in
                Ok (if neg then (- n)%Z else n)
      else Raise ValueError
  end.

(** The binary64 number nearest to [m * 10 ^ e], ties to even. *)
Definition decimal_to_float (neg : bool) (m : N) (e : Z) : spec_float :=
  match m with
  | N0 => S754_zero neg
  | Npos p =>
      if (0 <=? e)%Z
      then binary_round 53 1024 neg (p * Z.to_pos (10 ^ e))%positive 0
      else SFdiv 53 1024 (S754_finite neg p 0)
                         (S754_finite false (Z.to_pos (10 ^ (- e))) 0)
  end.

Definition parse_exponent (s : string) : option Z :=
  match s with
  | EmptyString => Some 0%Z
  | String c r =>
      if Ascii.eqb c "e" || Ascii.eqb c "E" then
        let (neg, r1) := split_sign r in
        let (ds, r2) := span_digits r1 in
        if String.eqb ds "" || negb (String.eqb r2 "") then None
        else let n := Z.of_N (digits_value 0 ds) in
             Some (if neg then (- n)%Z else n)
      else None
  end.

(** [sign? (digits [. digits?] | . digits) ([eE] sign? digits)?] *)
Definition parse_decimal (s : string) : option spec_float :=
  let (neg, s1) := split_sign s in
  let (ip, s2) := span_digits s1 in
  let (fp, s3) :=
    match s2 with
    | String "." r => span_digits r
    | _ => (EmptyString, s2)
    end in
  if String.eqb (ip ++ fp) "" then None
  else
    match parse_exponent s3 with
    | None => None
    | Some e =>
        Some (decimal_to_float neg (digits_value 0 (ip ++ fp))
                (e - Z.of_nat (String.length fp)))
    end.

Definition lower_ascii_char (c : ascii) : ascii :=
  if in_range 65 90 c then ascii_of_N (code c + 32) else c.

(** [sign? (inf | infinity | nan)], in any case. *)
Definition parse_inf_or_nan (s : string) : option spec_float :=
  let (neg, r) := split_sign s in
  let l := map_str lower_ascii_char r in
  if String.eqb l "inf" || String.eqb l "infinity" then Some (S754_infinity neg)
  else if String.eqb l "nan" then Some S754_nan
  else None.

Definition py_float (s : string) : result spec_float :=
  match drop_underscores "000" (strip_by isspace_num s) with
  | None => Raise ValueError
  | Some t =>
      match parse_decimal t with
      | Some f => Ok f
      | None =>
          match parse_inf_or_nan t with
          | Some f => Ok f
          | None => Raise ValueError
          end
      end
  end.

(** *** Values *)

(** The Python objects the loaders handle: what [json.load] returns, the
    cells of a CSV row, and the values of a document. *)
Inductive pyobj :=
  | PyNone
  | PyBool (b : bool)
  | PyInt (z : Z)
  | PyFloat (f : spec_float)
  | PyStr (s : string)
  | PyList (l : list pyobj)
  | PyDict (d : gmap string pyobj).

(** Truth value of an object, as [or] and [if] test it. *)
Definition truthy (o : pyobj) : bool :=
  match o with
  | PyNone => false
  | PyBool b => b
  | PyInt z => negb (z =? 0)%Z
  | PyFloat (S754_zero _) => false
  | PyFloat _ => true
  | PyStr s => negb (String.eqb s "")
  | PyList l => match l with [] => false | _ => true end
  | PyDict d => negb (bool_decide (size d = 0%nat))
  end.

(** [isinstance(o, dict)] and [isinstance(o, list)] *)
Definition is_dict (o : pyobj) : bool :=
  match o with PyDict _ => true | _ => false end.

Definition is_list (o : pyobj) : bool :=
  match o with PyList _ => true | _ => false end.

(** [o == s] for a string literal [s] *)
Definition eq_str (o : pyobj) (s : string) : bool :=
  match o with PyStr t => String.eqb t s | _ => false end.

(** [s.endswith(p)] *)
Fixpoint endswith (s p : string) : bool :=
  String.eqb s p
  || match s with
     | EmptyString => false
     | String _ r => endswith r p
     end.

(** The two ways the loaders open a file: through [gzip.open] wrapped in a
    text reader, or with [open]. *)
Inductive opener :=
  | GzipText
  | PlainText.

End Py.

(** ** The MongoDB driver, as the loaders use it *)

Module Mongo.
Import Py.

(** A document: field name to value. *)
Abbreviation document := (gmap string pyobj).

(** The requests a loader sends, in order. *)
Inductive db_op :=
  | MongoClient (uri : string)
  | DropCollection (db collection : string)
  | CreateIndex (db collection field : string)
  | BulkWrite (db collection : string) (docs : list document).

Section Writes.
(** The reply of the server to one unordered bulk insert: the number of
    documents inserted, or a [BulkWriteError]. *)
Variable bulk_write : list document -> result Z.
Variables db collection : string.

(** [for i, docs in enumerate(batches, start=1): res = coll.bulk_write(...);
    total += res.inserted_count], over batches that a generator yields:
    an exception of the generator surfaces after the batches before it
    were written. *)
Fixpoint write_batches (batches : list (list document)) (stop : option exn)
    (total : Z) : list db_op * result Z :=
  match batches with
  | [] => ([], match stop with Some e => Raise e | None => Ok total end)
  | docs :: rest =>
      match bulk_write docs with
      | Raise e => ([BulkWrite db collection docs], Raise e)
      | Ok inserted =>
          let (ops, r) := write_batches rest stop (total + inserted) in
          (BulkWrite db collection docs :: ops, r)
      end
  end.
End Writes.

End Mongo.

(** ** [load_csv_to_mongo.py] *)

Module CsvLoader.
Import Py Mongo.

(** [\w]: alphanumeric or underscore. *)
Definition re_word (c : ascii) : bool := isalnum_char c || Ascii.eqb c "_".

(** [\s] *)
Definition re_space (c : ascii) : bool := isspace_char c.

(** [re.sub(r"[^\w\s]", "", k)] *)
Definition sub_non_word_space (k : string) : string :=
  filter_str (fun c => re_word c || re_space c) k.

(** [re.sub(r"\s+", "_", k)]; [in_run] tells that the character before was
    white space, already replaced. *)
Fixpoint sub_space_runs_from (in_run : bool) (k : string) : string :=
  match k with
  | EmptyString => EmptyString
  | String c r =>
      if re_space c then
        if in_run then sub_space_runs_from true r
        else String "_" (sub_space_runs_from true r)
      else String c (sub_space_runs_from false r)
  end.

Definition sub_space_runs (k : string) : string := sub_space_runs_from false k.

Definition normalize_key (k : string) : string :=
  let k := lower (strip k) in
  let k := sub_non_word_space k in
  let k := sub_space_runs k in
  k.

Definition coerce_value `{Runtime} (v : option string) : result pyobj :=
  match v with
  | None => Ok PyNone
  | Some v =>
      if String.eqb (strip v) "" then Ok PyNone
      else
        let v := strip v in
        try_except
          (if isdigit v && negb ((1 <? len v)%Z && startswith v "0")
           then bind (py_int v) (fun z => Ok (PyInt z))
           else bind (py_float (replace "," "" v)) (fun f => Ok (PyFloat f)))
          (fun e => match e with
                    | ValueError => Ok (PyStr v)
                    | _ => Raise e
                    end)
  end.

(** [batch(iterable, n)]: [buf] is the buffer at the head of the loop;
    [items] and [stop] are what the iterable still yields and how it ends. *)
Fixpoint batch_loop {A} (items : list A) (stop : option exn) (n : Z)
    (buf : list A) : gen (list A) :=
  match items with
  | [] =>
      match stop with
      | Some e => ([], Some e)
      | None => (match buf with [] => [] | _ => [buf] end, None)
      end
  | item :: rest =>
      let buf := (buf ++ [item])%list in
      if (n <=? Z.of_nat (length buf))%Z
      then let (bs, e) := batch_loop rest stop n [] in (buf :: bs, e)
      else batch_loop rest stop n buf
  end.

Definition batch {A} (iterable : gen A) (n : Z) : gen (list A) :=
  batch_loop (fst iterable) (snd iterable) n [].

Record args := {
  csv : string;
  db : string;
  collection : string;
  batch_size : Z;
  normalize_keys : bool;
  drop : bool;
  encoding : string
}.

(** [main()], after [load_dotenv()] and [parse_args()]: [environ] is the
    process environment, [rows] what [read_csv_rows] yields for the file.
    Returns the requests sent to the server and the outcome (the total
    inserted). *)
Definition main (bulk_write : list document -> result Z)
    (environ : gmap string string) (a : args) (rows : gen document)
    : list db_op * result Z :=
  let mongo_uri := environ !! "MONGO_URI" in
  match mongo_uri with
  | None | Some EmptyString => ([], Raise EnvironmentError)
  | Some mongo_uri =>
      let ops0 :=
        MongoClient mongo_uri ::
        (if drop a then [DropCollection (db a) (collection a)] else []) in
      let (bs, stop) := batch rows (batch_size a) in
      let (ops, r) := write_batches bulk_write (db a) (collection a) bs stop 0 in
      ((ops0 ++ ops)%list, r)
  end.

Definition open_maybe_gzip (path : string) : opener :=
  if endswith path ".gz" then GzipText else PlainText.

(** What [csv.DictReader] gives: the header and, for each row, the items
    of its dict, in the order of the dict.  The dict has one item per
    distinct name of the header, at the place of the first column of that
    name and with the cell of the last; for a header of distinct names the
    items are the columns, in order.  A cell is [None] where the row is
    short.  The entry that [DictReader] adds to a row longer than the
    header is not modelled. *)
Record reader := {
  fieldnames : option (list string);
  rows : list (list (string * option string))
}.

(** What can end [read_csv_rows]: an exception of [exn], or the [KeyError]
    of [field_map[k]]. *)
Inductive read_exn :=
  | Builtin (e : exn)
  | KeyError (k : string).

(** [{name: normalize_key(name) if normalize_keys else name
      for name in reader.fieldnames}] *)
Definition field_map (names : list string) (normalize_keys : bool)
    : gmap string string :=
  foldl (fun m name =>
           <[name := if normalize_keys then normalize_key name else name]> m)
        ∅ names.

(** [{field_map[k]: coerce_value(v) for k, v in row.items()}], from the
    items still to come and the dict built so far. *)
Fixpoint row_doc `{Runtime} (fm : gmap string string)
    (items : list (string * option string)) (doc : document)
    : document + read_exn :=
  match items with
  | [] => inl doc
  | (k, v) :: rest =>
      match fm !! k with
      | None => inr (KeyError k)
      | Some key =>
          match coerce_value v with
          | Raise e => inr (Builtin e)
          | Ok value => row_doc fm rest (<[key := value]> doc)
          end
      end
  end.

(** [for row in reader: yield {...}] *)
Fixpoint read_rows `{Runtime} (fm : gmap string string)
    (rs : list (list (string * option string)))
    : list document * option read_exn :=
  match rs with
  | [] => ([], None)
  | row :: rest =>
      match row_doc fm row ∅ with
      | inr e => ([], Some e)
      | inl doc => let (ds, stop) := read_rows fm rest in (doc :: ds, stop)
      end
  end.

Definition read_csv_rows `{Runtime} (r : reader) (normalize_keys : bool)
    : list document * option read_exn :=
  match fieldnames r with
  | None => ([], Some (Builtin ValueError))
  | Some names => read_rows (field_map names normalize_keys) (rows r)
  end.

End CsvLoader.

(** ** [load_geojson_to_mongo.py] *)

Module GeoJsonLoader.
Import Py Mongo.

(** [obj.get(k)] on a dict *)
Definition dict_get (d : gmap string pyobj) (k : string) : pyobj :=
  default PyNone (d !! k).

Definition is_feature (obj : pyobj) : bool :=
  match obj with
  | PyDict d => eq_str (dict_get d "type") "Feature"
  | _ => false
  end.

Definition is_feature_collection (obj : pyobj) : bool :=
  match obj with
  | PyDict d =>
      eq_str (dict_get d "type") "FeatureCollection"
      && is_list (dict_get d "features")
  | _ => false
  end.

Definition normalize_feature (feat : pyobj) (geometry_field : string)
    (flatten_properties keep_id : bool) : result document :=
  match feat with
  | PyDict fd =>
      if negb (is_feature feat) then Raise ValueError
      else
        let geom := dict_get fd "geometry" in
        let props :=
          let p := default (PyDict ∅) (fd !! "properties") in
          if truthy p then p else PyDict ∅ in
        let doc : document := ∅ in
        (* Geometry *)
        let doc := <[geometry_field := geom]> doc in
        (* Properties: [doc.update(props)] or [doc["properties"] = props] *)
        let doc :=
          match flatten_properties, props with
          | true, PyDict pd => pd ∪ doc
          | _, _ => <["properties" := props]> doc
          end in
        (* Feature id *)
        let doc :=
          match keep_id, fd !! "id" with
          | true, Some id => <["_feature_id" := id]> doc
          | _, _ => doc
          end in
        Ok doc
  | _ => Raise ValueError
  end.

(** Two generators in sequence: the second runs if the first returned. *)
Definition gen_seq {A} (g1 g2 : gen A) : gen A :=
  match g1 with
  | (l1, Some e) => (l1, Some e)
  | (l1, None) => let (l2, stop) := g2 in ((l1 ++ l2)%list, stop)
  end.

(** One [yield] of a value that may fail to be computed. *)
Definition gen_yield {A} (r : result A) : gen A :=
  match r with
  | Ok a => ([a], None)
  | Raise e => ([], Some e)
  end.

Section Stream.
(** [json.loads], from the standard library. *)
Variable json_loads : string -> result pyobj.

Variable geometry_field : string.
Variables flatten_properties keep_id : bool.

(** [for feat in feats: yield normalize_feature(feat, ...)] *)
Fixpoint yield_each (feats : list pyobj) : gen document :=
  match feats with
  | [] => ([], None)
  | feat :: rest =>
      gen_seq
        (gen_yield (normalize_feature feat geometry_field flatten_properties keep_id))
        (yield_each rest)
  end.

(** [for feat in obj: if is_feature(feat): yield normalize_feature(feat, ...)] *)
Fixpoint yield_features_of (obj : list pyobj) : gen document :=
  match obj with
  | [] => ([], None)
  | feat :: rest =>
      if is_feature feat
      then gen_seq
             (gen_yield (normalize_feature feat geometry_field flatten_properties keep_id))
             (yield_features_of rest)
      else yield_features_of rest
  end.

(** The branches on the shape of one parsed value; both modes have the
    same four, and differ in the message of the error only. *)
Definition yield_docs_from_obj (obj : pyobj) : gen document :=
  if is_feature obj then
    gen_yield (normalize_feature obj geometry_field flatten_properties keep_id)
  else if is_feature_collection obj then
    match obj with
    | PyDict d =>
        match dict_get d "features" with
        | PyList feats => yield_each feats
        | _ => ([], Some ValueError)
        end
    | _ => ([], Some ValueError)
    end
  else
    match obj with
    | PyList l => yield_features_of l
    | _ => ([], Some ValueError)
    end.

(** [for line in f: ...] of the NDJSON mode *)
Fixpoint yield_docs_from_lines (f : list string) : gen document :=
  match f with
  | [] => ([], None)
  | line :: rest =>
      let line := strip line in
      if String.eqb line "" then yield_docs_from_lines rest
      else
        match json_loads line with
        | Raise e => ([], Some e)
        | Ok obj => gen_seq (yield_docs_from_obj obj) (yield_docs_from_lines rest)
        end
  end.

(** The stream [f] is the list of its lines. *)
Definition yield_docs_from_geojson_stream (f : list string) (ndjson : bool)
    : gen document :=
  if ndjson then yield_docs_from_lines f
  else
    (* Standard JSON / GeoJSON *)
    match json_loads (String.concat "" f) with
    | Raise e => ([], Some e)
    | Ok obj => yield_docs_from_obj obj
    end.
End Stream.

Fixpoint batch_iter_loop {A} (items : list A) (stop : option exn) (n : Z)
    (buf : list A) : gen (list A) :=
  match items with
  | [] =>
      match stop with
      | Some e => ([], Some e)
      | None => (match buf with [] => [] | _ => [buf] end, None)
      end
  | item :: rest =>
      let buf := (buf ++ [item])%list in
      if (n <=? Z.of_nat (length buf))%Z
      then let (bs, e) := batch_iter_loop rest stop n [] in (buf :: bs, e)
      else batch_iter_loop rest stop n buf
  end.

Definition batch_iter {A} (iterable : gen A) (n : Z) : gen (list A) :=
  batch_iter_loop (fst iterable) (snd iterable) n [].

(** The parsed command line; [mongo_uri] is [None] when [--mongo-uri] was
    not given, and the option takes its default. *)
Record args := {
  input : string;
  db : string;
  collection : string;
  mongo_uri : option string;
  geometry_field : string;
  flatten_properties : bool;
  keep_feature_id : bool;
  create_index : bool;
  drop : bool;
  batch_size : Z;
  ndjson : bool;
  encoding : string
}.

(** [default=os.getenv("MONGO_URI", "mongodb://localhost:27017")] *)
Definition default_mongo_uri (environ : gmap string string) : string :=
  default "mongodb://localhost:27017" (environ !! "MONGO_URI").

Definition args_mongo_uri (environ : gmap string string) (a : args) : string :=
  default (default_mongo_uri environ) (mongo_uri a).

(** [main()]: [f] is the opened input file. *)
Definition main (json_loads : string -> result pyobj)
    (bulk_write : list document -> result Z)
    (environ : gmap string string) (a : args) (f : list string)
    : list db_op * result Z :=
  let ops0 :=
    (MongoClient (args_mongo_uri environ a) ::
     (if drop a then [DropCollection (db a) (collection a)] else []) ++
     (if create_index a
      then [CreateIndex (db a) (collection a) (geometry_field a)] else []))%list in
  let (bs, stop) :=
    batch_iter
      (yield_docs_from_geojson_stream json_loads (geometry_field a)
         (flatten_properties a) (keep_feature_id a) f (ndjson a))
      (batch_size a) in
  let (ops, r) := write_batches bulk_write (db a) (collection a) bs stop 0 in
  ((ops0 ++ ops)%list, r).

Definition open_maybe_gzip (path : string) : opener :=
  if endswith (lower path) ".gz" then GzipText else PlainText.

End GeoJsonLoader.

(** ** [load_wkt_csv_to_mongo.py] *)

Module WktLoader.
Import Py Mongo.

(** What the loader asks of [shapely] and [pyproj]. *)
Class GeoLib := {
  BaseGeometry : Type;
  (** [shapely.wkt.loads] *)
  wkt_loads : string -> result BaseGeometry;
  (** [geom.is_valid] *)
  is_valid : BaseGeometry -> bool;
  (** [geom.buffer(distance)] *)
  buffer : BaseGeometry -> Z -> BaseGeometry;
  (** [shapely.geometry.mapping] *)
  mapping : BaseGeometry -> pyobj;
  (** [Transformer.from_crs(CRS.from_user_input(src),
      CRS.from_user_input(dst), always_xy=True)], applied to every
      coordinate of a geometry by [shapely.ops.transform] *)
  transform_coords : string -> string -> BaseGeometry -> result BaseGeometry
}.

Fixpoint list_eqb (a b : list N) : bool :=
  match a, b with
  | [], [] => true
  | x :: a', y :: b' => (x =? y)%N && list_eqb a' b'
  | _, _ => false
  end.

(** [v.upper() in {"NULL", "N/A", "NA", "NONE"}] *)
Definition is_null_token (v : string) : bool :=
  existsb (fun t => list_eqb (upper v) (codes t)) ["NULL"; "N/A"; "NA"; "NONE"].

Definition coerce_value `{Runtime} (v : option string) : result pyobj :=
  match v with
  | None => Ok PyNone
  | Some v =>
      let v := strip v in
      if String.eqb v "" || is_null_token v then Ok PyNone
      else
        (* Try int *)
        let as_int :=
          if isdigit v
             && negb ((1 <? len v)%Z
                      && match String.get 0 v with
                         | Some c => Ascii.eqb c "0"
                         | None => false
                         end)
          then try_except (bind (py_int v) (fun z => Ok (Some (PyInt z))))
                          (fun _ => Ok None)
          else Ok None in
        bind as_int (fun r =>
          match r with
          | Some x => Ok x
          | None =>
              (* Try float (remove thousands commas) *)
              try_except
                (bind (py_float (replace "," "" v)) (fun f => Ok (PyFloat f)))
                (fun _ => Ok (PyStr v))
          end)
  end.

Section Geometry.
Context `{GeoLib}.
Context {RT : Runtime}.

Definition parse_wkt (geom_wkt : string) : result BaseGeometry :=
  try_except
    (bind (wkt_loads geom_wkt) (fun geom =>
       (* Attempt simple validity fix (self-intersections) *)
       let geom := if negb (is_valid geom) then buffer geom 0 else geom in
       Ok geom))
    (fun e => match e with
              | WKTReadingError => Raise ValueError
              | _ => Raise e
              end).

Definition geom_to_geojson (geom : BaseGeometry) : pyobj := mapping geom.

Definition reproject_geometry (geom : BaseGeometry) (src_crs dst_crs : string)
    : result BaseGeometry :=
  if String.eqb src_crs dst_crs then Ok geom
  else transform_coords src_crs dst_crs geom.

(** What [csv.DictReader] gives: the header, and the rows as dicts from
    header names to cells; a cell is [None] where the row is short.  The
    entry that [DictReader] adds to a row longer than the header is not
    modelled. *)
Record reader := {
  fieldnames : option (list string);
  rows : list (gmap string (option string))
}.

Variables wkt_field geometry_field crs_in crs_out : string.

(** [for k, v in row.items(): if k == wkt_field: continue;
    doc[k] = coerce_value(v)] *)
Fixpoint fill_doc (items : list (string * option string)) (doc : document)
    : result document :=
  match items with
  | [] => Ok doc
  | (k, v) :: rest =>
      if String.eqb k wkt_field then fill_doc rest doc
      else bind (coerce_value v) (fun x => fill_doc rest (<[k := x]> doc))
  end.

(** The body of the loop over rows: [None] for a row that is skipped. *)
Definition doc_of_row (row : gmap string (option string))
    : result (option document) :=
  let raw_wkt := default None (row !! wkt_field) in
  match raw_wkt with
  | None => Ok None
  | Some raw_wkt =>
      if String.eqb (strip raw_wkt) "" then
        (* Skip rows without geometry *)
        Ok None
      else
        (* Parse and reproject geometry *)
        bind (parse_wkt raw_wkt) (fun geom =>
        bind (reproject_geometry geom crs_in crs_out) (fun geom =>
        let geom_geojson := geom_to_geojson geom in
        (* Build document: geometry + all other fields coerced *)
        let doc : document := {[ geometry_field := geom_geojson ]} in
        bind (fill_doc (map_to_list row) doc) (fun doc =>
        Ok (Some doc))))
  end.

Fixpoint yield_rows (rs : list (gmap string (option string))) : gen document :=
  match rs with
  | [] => ([], None)
  | row :: rest =>
      match doc_of_row row with
      | Raise e => ([], Some e)
      | Ok None => yield_rows rest
      | Ok (Some doc) => let (ds, stop) := yield_rows rest in (doc :: ds, stop)
      end
  end.

Definition yield_docs_from_csv (r : reader) : gen document :=
  match fieldnames r with
  | None | Some [] => ([], Some ValueError)
  | Some names =>
      if negb (existsb (String.eqb wkt_field) names)
      then ([], Some ValueError)
      else yield_rows (rows r)
  end.
End Geometry.

Fixpoint batch_iter_loop {A} (items : list A) (stop : option exn) (n : Z)
    (buf : list A) : gen (list A) :=
  match items with
  | [] =>
      match stop with
      | Some e => ([], Some e)
      | None => (match buf with [] => [] | _ => [buf] end, None)
      end
  | item :: rest =>
      let buf := (buf ++ [item])%list in
      if (n <=? Z.of_nat (length buf))%Z
      then let (bs, e) := batch_iter_loop rest stop n [] in (buf :: bs, e)
      else batch_iter_loop rest stop n buf
  end.

Definition batch_iter {A} (iterable : gen A) (n : Z) : gen (list A) :=
  batch_iter_loop (fst iterable) (snd iterable) n [].

(** The parsed command line; [mongo_uri] is [None] when [--mongo-uri] was
    not given, and the option takes its default. *)
Record args := {
  csv : string;
  db : string;
  collection : string;
  mongo_uri : option string;
  wkt_field : string;
  geometry_field : string;
  crs_in : string;
  crs_out : string;
  batch_size : Z;
  create_index : bool;
  drop : bool;
  encoding : string
}.

(** [default=os.getenv("MONGO_URI", "mongodb://localhost:27017")] *)
Definition default_mongo_uri (environ : gmap string string) : string :=
  default "mongodb://localhost:27017" (environ !! "MONGO_URI").

Definition args_mongo_uri (environ : gmap string string) (a : args) : string :=
  default (default_mongo_uri environ) (mongo_uri a).

(** [main()]: [r] is the reader over the opened CSV file. *)
Definition main `{GeoLib} `{Runtime} (bulk_write : list document -> result Z)
    (environ : gmap string string) (a : args) (r : reader)
    : list db_op * result Z :=
  let ops0 :=
    (MongoClient (args_mongo_uri environ a) ::
     (if drop a then [DropCollection (db a) (collection a)] else []) ++
     (if create_index a
      then [CreateIndex (db a) (collection a) (geometry_field a)] else []))%list in
  let (bs, stop) :=
    batch_iter
      (yield_docs_from_csv (wkt_field a) (geometry_field a) (crs_in a) (crs_out a) r)
      (batch_size a) in
  let (ops, r) := write_batches bulk_write (db a) (collection a) bs stop 0 in
  ((ops0 ++ ops)%list, r).

Definition open_maybe_gzip (path : string) : opener :=
  if endswith (lower path) ".gz" then GzipText else PlainText.

(** A small geometry library to run the loader on: points with integer
    coordinates, written [POINT (x y)]; always valid; the only change of
    reference system it knows is between a system and itself. *)
Module Sample.

Definition parse_point (s : string) : result (Z * Z) :=
  match index 0 "POINT (" s with
  | Some O =>
      let body := substring 7 (String.length s - 7) s in
      let (xs, r1) := span_digits body in
      match r1 with
      | String " " r2 =>
          let (ys, r3) := span_digits r2 in
          if String.eqb r3 ")" && negb (String.eqb xs "") && negb (String.eqb ys "")
          then Ok (Z.of_N (digits_value 0 xs), Z.of_N (digits_value 0 ys))
          else Raise WKTReadingError
      | _ => Raise WKTReadingError
      end
  | _ => Raise WKTReadingError
  end.

Definition point_mapping (p : Z * Z) : pyobj :=
  PyDict {[ "type" := PyStr "Point";
            "coordinates" := PyList [PyInt (fst p); PyInt (snd p)] ]}.

#[export] Instance points : GeoLib := {|
  BaseGeometry := Z * Z;
  wkt_loads := parse_point;
  is_valid := fun _ => true;
  buffer := fun g _ => g;
  mapping := point_mapping;
  transform_coords := fun src dst g =>
    if String.eqb src dst then Ok g else Raise CRSError
|}.

End Sample.

End WktLoader.

Import Py.

(** ** Vocabulary of the properties *)

(** A key in normal form: word characters only, each its own lower case. *)
Definition normal_char (c : ascii) : bool :=
  CsvLoader.re_word c && Ascii.eqb (lower_char c) c.

(** [ceil(a / b)] for a positive [b]. *)
Definition ceil_div (a b : Z) : Z := ((a + b - 1) / b)%Z.

(** The shape of the batches of size [n]: every one has between 1 and [n]
    elements, and every one but the last has [n]. *)
Definition batches_of_size {A} (n : Z) (bs : list (list A)) : Prop :=
  forall (i : nat) (b : list A), bs !! i = Some b ->
    (1 <= Z.of_nat (length b) <= n)%Z
    /\ (S i < length bs -> Z.of_nat (length b) = n)%nat.

(** A stand-in for [json.loads] to run the GeoJSON loader on: it reads one
    text, an array of a number and an empty object. *)
Definition sample_json_loads (s : string) : result pyobj :=
  if String.eqb s "[1, {}]" then Ok (PyList [PyInt 1; PyDict ∅])
  else Raise JSONDecodeError.

(** A Feature with an id and one property, and a Feature whose properties
    use the key under which the id is retained. *)
Definition sample_properties : gmap string pyobj :=
  {[ "name" := PyStr "x" ]}.

Definition sample_feature : gmap string pyobj :=
  {[ "type" := PyStr "Feature"; "id" := PyInt 7;
     "properties" := PyDict sample_properties ]}.

Definition clashing_properties : gmap string pyobj :=
  {[ "_feature_id" := PyStr "x" ]}.

Definition clashing_feature : gmap string pyobj :=
  {[ "type" := PyStr "Feature"; "id" := PyInt 7;
     "properties" := PyDict clashing_properties ]}.

(** Two rows of a CSV file with the columns [the_geom] and [a]. *)
Definition point_row : gmap string (option string) :=
  {[ "the_geom" := Some "POINT (30 10)"; "a" := Some "1" ]}.

Definition garbage_row : gmap string (option string) :=
  {[ "the_geom" := Some "garbage"; "a" := Some "1" ]}.

(** The order of the checks of the value coercion, in the words of the
    specification: null check, then integer check, then float check, then
    the string itself. *)
Definition int_check `{Runtime} (v : string) : option Z :=
  if isdigit v && negb ((1 <? len v)%Z && startswith v "0")
  then match py_int v with Ok z => Some z | Raise _ => None end
  else None.

Definition float_check (v : string) : option spec_float :=
  match py_float (replace "," "" v) with Ok f => Some f | Raise _ => None end.

Definition coerce_by_precedence `{Runtime} (null_check : string -> bool)
    (v : option string) : pyobj :=
  match v with
  | None => PyNone
  | Some v =>
      let v := strip v in
      if null_check v then PyNone
      else
        match int_check v with
        | Some z => PyInt z
        | None =>
            match float_check v with
            | Some f => PyFloat f
            | None => PyStr v
            end
        end
  end.

(** The integer check of both loaders: all digits, no leading zero. *)
Definition integer_guard (v : string) : bool :=
  isdigit v && negb ((1 <? len v)%Z && startswith v "0").

(** The float that [float()] reads from a string that passes the integer
    check and that [int()] refuses, if there is one. *)
Definition int_refused_float `{Runtime} (v : string) : option spec_float :=
  if integer_guard v
  then match py_int v with
       | Ok _ => None
       | Raise _ => float_check v
       end
  else None.

(** The null check of each loader, on the stripped string. *)
Definition csv_null_check (v : string) : bool := String.eqb v "".

Definition wkt_null_check (v : string) : bool :=
  String.eqb v "" || WktLoader.is_null_token v.

(** The order of the checks in the CSV loader, as the code has it: the
    order above, except that a string that passes the integer check and
    that [int()] refuses is kept as a string, without the float check. *)
Definition csv_coerce_order `{Runtime} (v : option string) : pyobj :=
  match v with
  | None => PyNone
  | Some s =>
      match int_refused_float (strip s) with
      | Some _ => PyStr (strip s)
      | None => coerce_by_precedence csv_null_check v
      end
  end.

(** A string of 4301 digits, one more than CPython allows as it starts. *)
Definition digits_4301 : string :=
  string_of_list_ascii (List.repeat "1"%char 4301).

(** Null, integer, float or string. *)
Definition is_scalar (o : pyobj) : bool :=
  match o with
  | PyNone | PyInt _ | PyFloat _ | PyStr _ => true
  | _ => false
  end.

(** A server that inserts every document of every batch. *)
Definition all_inserted (bulk_write : list Mongo.document -> result Z) : Prop :=
  forall docs, bulk_write docs = Ok (Z.of_nat (length docs)).

(** The command line of the GeoJSON loader and of the WKT loader used in
    the examples: drop the collection, create the index, batches of two. *)
Definition sample_geojson_args : GeoJsonLoader.args :=
  {| GeoJsonLoader.input := "f.geojson"; GeoJsonLoader.db := "d";
     GeoJsonLoader.collection := "c"; GeoJsonLoader.mongo_uri := None;
     GeoJsonLoader.geometry_field := "geometry";
     GeoJsonLoader.flatten_properties := false;
     GeoJsonLoader.keep_feature_id := false;
     GeoJsonLoader.create_index := true; GeoJsonLoader.drop := true;
     GeoJsonLoader.batch_size := 2; GeoJsonLoader.ndjson := false;
     GeoJsonLoader.encoding := "utf-8" |}.

Definition sample_wkt_args : WktLoader.args :=
  {| WktLoader.csv := "f.csv"; WktLoader.db := "d"; WktLoader.collection := "c";
     WktLoader.mongo_uri := None; WktLoader.wkt_field := "the_geom";
     WktLoader.geometry_field := "geometry"; WktLoader.crs_in := "EPSG:4326";
     WktLoader.crs_out := "EPSG:4326"; WktLoader.batch_size := 2;
     WktLoader.create_index := true; WktLoader.drop := true;
     WktLoader.encoding := "utf-8" |}.

(** A FeatureCollection of two Features, and one whose second member is
    not a Feature. *)
Definition sample_collection : gmap string pyobj :=
  {[ "type" := PyStr "FeatureCollection";
     "features" := PyList [PyDict sample_feature; PyDict clashing_feature] ]}.

Definition broken_collection : gmap string pyobj :=
  {[ "type" := PyStr "FeatureCollection";
     "features" := PyList [PyDict sample_feature; PyInt 1; PyDict clashing_feature] ]}.

(** A Feature whose properties are a list. *)
Definition list_properties_feature : gmap string pyobj :=
  {[ "type" := PyStr "Feature"; "properties" := PyList [PyInt 1] ]}.

(** A string of decimal digits that is ["0"] or does not start with a
    zero, and a string of two or more decimal digits that starts with one. *)
Definition plain_integer (t : string) : bool :=
  negb (String.eqb t "") && forallb_str isdecimal_char t
  && negb ((1 <? len t)%Z && startswith t "0").

Definition zero_padded (t : string) : bool :=
  forallb_str isdecimal_char t && (1 <? len t)%Z && startswith t "0".

(** A CSV file with the header [Street Name, street_name, n], whose first
    two names normalize to the same key, and one row. *)
Definition clashing_header : list string :=
  ["Street Name"; "street_name"; "n"]%string.

Definition clashing_row : list (string * option string) :=
  [("Street Name", Some "Main St"); ("street_name", Some "2nd Ave");
   ("n", Some "42")]%string.




(** * Properties *)

Local Open Scope list_scope.

(** The examples, which fix every input, are run on CPython as it starts;
    the general statements hold for every setting of the interpreter. *)
#[local] Existing Instance cpython_default.

(** ** Characters and strings *)

Ltac each_char c :=
  destruct c as [[] [] [] [] [] [] [] []]; vm_compute; try reflexivity;
  try discriminate; auto.

Lemma lower_char_idem c : lower_char (lower_char c) = lower_char c.
Proof. each_char c. Qed.

Lemma re_word_not_space c : CsvLoader.re_word c = true -> CsvLoader.re_space c = false.
Proof. each_char c. Qed.

Lemma isdigit_char_not_space c : isdigit_char c = true -> isspace_char c = false.
Proof. each_char c. Qed.

Lemma forallb_str_impl (p q : ascii -> bool) s :
  (forall c, p c = true -> q c = true) ->
  forallb_str p s = true -> forallb_str q s = true.
Proof.
  intros Hpq. induction s as [|c r IH]; simpl; [done|].
  rewrite !andb_true_iff. intros [Hc Hr]. split; [by apply Hpq | by apply IH].
Qed.

Lemma lstrip_by_none p s :
  forallb_str (fun c => negb (p c)) s = true -> lstrip_by p s = s.
Proof.
  destruct s as [|c r]; simpl; [done|].
  rewrite andb_true_iff, negb_true_iff. by intros [-> _].
Qed.

Lemma rstrip_by_none p s :
  forallb_str (fun c => negb (p c)) s = true -> rstrip_by p s = s.
Proof.
  induction s as [|c r IH]; simpl; [done|].
  rewrite andb_true_iff, negb_true_iff. intros [Hc Hr].
  rewrite (IH Hr), Hc. by destruct r.
Qed.

Lemma strip_by_none p s :
  forallb_str (fun c => negb (p c)) s = true -> strip_by p s = s.
Proof.
  intros Hs. unfold strip_by. rewrite (lstrip_by_none _ _ Hs).
  by apply rstrip_by_none.
Qed.

(** ** Key normalization *)

Lemma normal_char_not_space c : normal_char c = true -> negb (isspace_char c) = true.
Proof.
  unfold normal_char. rewrite andb_true_iff. intros [Hw _].
  apply re_word_not_space in Hw. unfold CsvLoader.re_space in Hw. by rewrite Hw.
Qed.

Lemma lower_normal s : forallb_str normal_char s = true -> lower s = s.
Proof.
  unfold lower. induction s as [|c r IH]; simpl; [done|].
  rewrite andb_true_iff. intros [Hc Hr]. rewrite (IH Hr). f_equal.
  unfold normal_char in Hc. apply andb_true_iff in Hc as [_ Hc].
  by apply Ascii.eqb_eq.
Qed.

Lemma sub_non_word_space_normal s :
  forallb_str normal_char s = true -> CsvLoader.sub_non_word_space s = s.
Proof.
  unfold CsvLoader.sub_non_word_space.
  induction s as [|c r IH]; simpl; [done|].
  rewrite andb_true_iff. intros [Hc Hr]. rewrite (IH Hr).
  unfold normal_char in Hc. apply andb_true_iff in Hc as [-> _]. done.
Qed.

Lemma sub_space_runs_normal b s :
  forallb_str normal_char s = true -> CsvLoader.sub_space_runs_from b s = s.
Proof.
  revert b. induction s as [|c r IH]; intros b; simpl; [done|].
  rewrite andb_true_iff. intros [Hc Hr].
  apply normal_char_not_space, negb_true_iff in Hc.
  unfold CsvLoader.re_space. by rewrite Hc, (IH _ Hr).
Qed.

Lemma normalize_key_normal s :
  forallb_str normal_char s = true -> CsvLoader.normalize_key s = s.
Proof.
  intros Hs. unfold CsvLoader.normalize_key, strip.
  rewrite strip_by_none
    by (eapply forallb_str_impl; [apply normal_char_not_space | done]).
  rewrite (lower_normal _ Hs), (sub_non_word_space_normal _ Hs).
  by apply sub_space_runs_normal.
Qed.

Lemma lower_lowered s :
  forallb_str (fun c => Ascii.eqb (lower_char c) c) (lower s) = true.
Proof.
  unfold lower. induction s as [|c r IH]; simpl; [done|].
  rewrite IH, andb_true_r. apply Ascii.eqb_eq, lower_char_idem.
Qed.

Lemma sub_non_word_space_kept s :
  forallb_str (fun c => Ascii.eqb (lower_char c) c) s = true ->
  forallb_str (fun c => (CsvLoader.re_word c || CsvLoader.re_space c)
                        && Ascii.eqb (lower_char c) c)
    (CsvLoader.sub_non_word_space s) = true.
Proof.
  unfold CsvLoader.sub_non_word_space.
  induction s as [|c r IH]; simpl; [done|].
  rewrite andb_true_iff. intros [Hc Hr].
  destruct (CsvLoader.re_word c || CsvLoader.re_space c) eqn:Hk; simpl; [|by apply IH].
  by rewrite Hk, Hc, (IH Hr).
Qed.

Lemma sub_space_runs_result b s :
  forallb_str (fun c => (CsvLoader.re_word c || CsvLoader.re_space c)
                        && Ascii.eqb (lower_char c) c) s = true ->
  forallb_str normal_char (CsvLoader.sub_space_runs_from b s) = true.
Proof.
  revert b. induction s as [|c r IH]; intros b; simpl; [done|].
  rewrite !andb_true_iff. intros [[Hk Hl] Hr].
  destruct (CsvLoader.re_space c) eqn:Hs.
  - destruct b; simpl; by rewrite ?IH.
  - simpl. rewrite (IH _ Hr), andb_true_r. unfold normal_char.
    rewrite orb_false_r in Hk. by rewrite Hk, Hl.
Qed.

Lemma normalize_key_result k :
  forallb_str normal_char (CsvLoader.normalize_key k) = true.
Proof.
  unfold CsvLoader.normalize_key, CsvLoader.sub_space_runs.
  apply sub_space_runs_result, sub_non_word_space_kept, lower_lowered.
Qed.

(** C6: key normalization is idempotent, and takes ["Street Name!"] to
    ["street_name"]. *)
Theorem normalize_key_idempotent :
  (forall k : string,
     CsvLoader.normalize_key (CsvLoader.normalize_key k) = CsvLoader.normalize_key k)
  /\ CsvLoader.normalize_key "Street Name!" = "street_name".
Proof.
  split; [|reflexivity].
  intros k. apply normalize_key_normal, normalize_key_result.
Qed.

(** ** Batching *)

Lemma ceil_div_bounds a b :
  (0 < b -> b * (ceil_div a b - 1) < a <= b * ceil_div a b)%Z.
Proof.
  intros Hb. unfold ceil_div.
  pose proof (Z.div_mod (a + b - 1) b ltac:(lia)) as Hdm.
  pose proof (Z.mod_pos_bound (a + b - 1) b Hb). lia.
Qed.

Lemma ceil_div_zero b : (1 <= b -> ceil_div 0 b = 0)%Z.
Proof. intros Hb. unfold ceil_div. apply Z.div_small. lia. Qed.

Lemma ceil_div_one a b : (1 <= a <= b -> ceil_div a b = 1)%Z.
Proof.
  intros Hab. unfold ceil_div. symmetry.
  apply Z.div_unique with (r := (a - 1)%Z); lia.
Qed.

Lemma ceil_div_add a b : (1 <= b -> ceil_div (b + a) b = 1 + ceil_div a b)%Z.
Proof.
  intros Hb. unfold ceil_div.
  replace (b + a + b - 1)%Z with (1 * b + (a + b - 1))%Z by lia.
  rewrite Z.div_add_l by lia. done.
Qed.

Lemma batches_of_size_nil {A} n : batches_of_size n (@nil (list A)).
Proof. intros i b Hi. by rewrite lookup_nil in Hi. Qed.

Lemma batches_of_size_last {A} n (b : list A) :
  (1 <= Z.of_nat (length b) <= n)%Z -> batches_of_size n [b].
Proof.
  intros Hb i b' Hi. destruct i; simpl in Hi; [|by rewrite lookup_nil in Hi].
  injection Hi as <-. split; [done|]. simpl. lia.
Qed.

Lemma batches_of_size_cons {A} n (b : list A) bs :
  Z.of_nat (length b) = n -> (1 <= n)%Z ->
  batches_of_size n bs -> batches_of_size n (b :: bs).
Proof.
  intros Hb Hn Hbs i b' Hi. destruct i; simpl in Hi.
  - injection Hi as <-. split; [lia | done].
  - destruct (Hbs _ _ Hi) as [H1 H2]. split; [done|].
    intros Hlt. apply H2. simpl in Hlt. lia.
Qed.

Lemma batch_loop_spec {A} (n : Z) (items buf : list A) :
  (1 <= n)%Z -> (Z.of_nat (length buf) < n)%Z ->
  exists bs,
    CsvLoader.batch_loop items None n buf = (bs, None)
    /\ concat bs = (buf ++ items)%list
    /\ Z.of_nat (length bs) = ceil_div (Z.of_nat (length buf + length items)) n
    /\ batches_of_size n bs.
Proof.
  intros Hn. revert buf.
  induction items as [|item rest IH]; intros buf Hbuf; simpl.
  - destruct buf as [|x buf'] eqn:Eb.
    + exists []. split; [done|]. split; [done|]. split.
      * simpl. by rewrite ceil_div_zero.
      * apply batches_of_size_nil.
    + exists [x :: buf']. simpl in *. split; [done|]. split.
      { by rewrite !app_nil_r. }
      split.
      * rewrite Nat.add_0_r, ceil_div_one; [done | lia].
      * apply batches_of_size_last. simpl. lia.
  - assert (Hlen : length (buf ++ [item]) = S (length buf))
      by (rewrite length_app; simpl; lia).
    destruct (Z.leb_spec n (Z.of_nat (length (buf ++ [item])))) as [Hfull|Hroom].
    + destruct (IH [] ltac:(simpl; lia)) as (bs & Hrun & Hcat & Hcount & Hshape).
      rewrite Hrun. exists ((buf ++ [item]) :: bs).
      split; [done|]. split.
      { simpl. rewrite Hcat. simpl. by rewrite <- app_assoc. }
      split.
      * simpl length. rewrite Nat2Z.inj_succ, Hcount. simpl length.
        replace (Z.of_nat (length buf + S (length rest)))
          with (n + Z.of_nat (0 + length rest))%Z by lia.
        rewrite ceil_div_add by done. lia.
      * apply batches_of_size_cons; [lia | done | done].
    + destruct (IH (buf ++ [item]) Hroom) as (bs & Hrun & Hcat & Hcount & Hshape).
      exists bs. split; [done|]. split.
      { by rewrite Hcat, <- app_assoc. }
      split; [|done].
      rewrite Hcount, Hlen. f_equal. lia.
Qed.

Lemma geojson_batch_iter_loop_eq {A} :
  @GeoJsonLoader.batch_iter_loop A = @CsvLoader.batch_loop A.
Proof. reflexivity. Qed.

Lemma wkt_batch_iter_loop_eq {A} :
  @WktLoader.batch_iter_loop A = @CsvLoader.batch_loop A.
Proof. reflexivity. Qed.

(** C3: for a batch size [B >= 1] the batcher cuts a finite sequence of
    length [L] into [ceil(L/B)] batches, all of [B] elements except possibly
    the last, which has between 1 and [B]; the batches concatenated give the
    sequence back, and the empty sequence gives no batch.  The three loaders
    share the batcher. *)
Theorem batch_contract {A} (l : list A) (B : Z) :
  (1 <= B)%Z ->
  exists bs,
    CsvLoader.batch (l, None) B = (bs, None)
    /\ GeoJsonLoader.batch_iter (l, None) B = (bs, None)
    /\ WktLoader.batch_iter (l, None) B = (bs, None)
    /\ Z.of_nat (length bs) = ceil_div (Z.of_nat (length l)) B
    /\ batches_of_size B bs
    /\ concat bs = l
    /\ (l = [] -> bs = []).
Proof.
  intros HB.
  destruct (batch_loop_spec B l [] HB ltac:(simpl; lia))
    as (bs & Hrun & Hcat & Hcount & Hshape).
  exists bs. do 3 (split; [exact Hrun|]).
  repeat (split; [done|]).
  intros ->. simpl in Hrun. by injection Hrun as <-.
Qed.

(** Five elements in batches of two. *)
Lemma batch_contract_witness :
  exists bs,
    CsvLoader.batch ([1; 2; 3; 4; 5]%Z, None) 2 = (bs, None)
    /\ GeoJsonLoader.batch_iter ([1; 2; 3; 4; 5]%Z, None) 2 = (bs, None)
    /\ WktLoader.batch_iter ([1; 2; 3; 4; 5]%Z, None) 2 = (bs, None)
    /\ Z.of_nat (length bs) = ceil_div (Z.of_nat (length [1; 2; 3; 4; 5]%Z)) 2
    /\ batches_of_size 2 bs
    /\ concat bs = [1; 2; 3; 4; 5]%Z
    /\ ([1; 2; 3; 4; 5]%Z = [] -> bs = []).
Proof. apply (batch_contract [1; 2; 3; 4; 5]%Z 2). lia. Defined.

(** ** Value coercion on the inputs of the specification *)

(** C1: what the CSV loader's [coerce_value] returns on the six inputs.
    Blank strings give [None], ["42"] the integer, ["3,500.25"] the float
    and ["abc"] itself; ["007"] is kept from the integer branch and then
    read by [float()], so it comes out as the float 7.0, not as a string. *)
Theorem csv_coerce_value_examples {RT : Runtime} :
  CsvLoader.coerce_value (Some "") = Ok PyNone
  /\ CsvLoader.coerce_value (Some "  ") = Ok PyNone
  /\ CsvLoader.coerce_value (Some "007") = Ok (PyFloat (Prim2SF 7%float))
  /\ CsvLoader.coerce_value (Some "42") = Ok (PyInt 42)
  /\ CsvLoader.coerce_value (Some "3,500.25") = Ok (PyFloat (Prim2SF 3500.25%float))
  /\ CsvLoader.coerce_value (Some "abc") = Ok (PyStr "abc").
Proof. repeat split; vm_compute; reflexivity. Qed.

(** ** Reprojection *)

(** C7: with equal source and destination reference systems the
    reprojection returns the geometry it was given, so that parsing followed
    by reprojection is parsing alone. *)
Theorem reproject_geometry_identity `{WktLoader.GeoLib}
    (geom : WktLoader.BaseGeometry) (src_crs dst_crs : string) :
  src_crs = dst_crs ->
  WktLoader.reproject_geometry geom src_crs dst_crs = Ok geom
  /\ forall geom_wkt,
       bind (WktLoader.parse_wkt geom_wkt)
            (fun g => WktLoader.reproject_geometry g src_crs dst_crs)
       = WktLoader.parse_wkt geom_wkt.
Proof.
  intros ->. unfold WktLoader.reproject_geometry. rewrite String.eqb_refl.
  split; [done|]. intros w. by destruct (WktLoader.parse_wkt w).
Qed.

(** A point kept in EPSG:4326. *)
Lemma reproject_geometry_identity_witness :
  WktLoader.reproject_geometry (H := WktLoader.Sample.points)
    (30%Z, 10%Z) "EPSG:4326" "EPSG:4326" = Ok (30%Z, 10%Z)
  /\ forall geom_wkt,
       bind (WktLoader.parse_wkt (H := WktLoader.Sample.points) geom_wkt)
            (fun g => WktLoader.reproject_geometry g "EPSG:4326" "EPSG:4326")
       = WktLoader.parse_wkt geom_wkt.
Proof.
  apply (reproject_geometry_identity (H := WktLoader.Sample.points)
           (30%Z, 10%Z) "EPSG:4326" "EPSG:4326").
  reflexivity.
Defined.

(** ** The connection string *)

(** C9: without [MONGO_URI] in the environment the CSV loader raises before
    it sends anything to the server; the two other loaders take
    [mongodb://localhost:27017] as the default of [--mongo-uri] and connect
    (to the URI of the command line when one is given, to the default
    otherwise). *)
Theorem mongo_uri_absent `{WktLoader.GeoLib} {RT : Runtime} (environ : gmap string string) :
  environ !! "MONGO_URI" = None ->
  (forall bulk_write a rows,
     CsvLoader.main bulk_write environ a rows = ([], Raise EnvironmentError))
  /\ GeoJsonLoader.default_mongo_uri environ = "mongodb://localhost:27017"
  /\ WktLoader.default_mongo_uri environ = "mongodb://localhost:27017"
  /\ (forall json_loads bulk_write a f, exists ops r,
        GeoJsonLoader.main json_loads bulk_write environ a f
        = (Mongo.MongoClient
             (default "mongodb://localhost:27017" (GeoJsonLoader.mongo_uri a)) :: ops, r))
  /\ (forall bulk_write a rd, exists ops r,
        WktLoader.main bulk_write environ a rd
        = (Mongo.MongoClient
             (default "mongodb://localhost:27017" (WktLoader.mongo_uri a)) :: ops, r)).
Proof.
  intros Henv. split; [|split; [|split; [|split]]].
  - intros bw a rows. unfold CsvLoader.main. by rewrite Henv.
  - unfold GeoJsonLoader.default_mongo_uri. by rewrite Henv.
  - unfold WktLoader.default_mongo_uri. by rewrite Henv.
  - intros jl bw a f. unfold GeoJsonLoader.main, GeoJsonLoader.args_mongo_uri,
      GeoJsonLoader.default_mongo_uri. rewrite Henv. simpl default at 2.
    destruct (GeoJsonLoader.batch_iter _ _) as [bs stop].
    destruct (Mongo.write_batches _ _ _ _ _ _) as [ops r].
    simpl. eauto.
  - intros bw a rd. unfold WktLoader.main, WktLoader.args_mongo_uri,
      WktLoader.default_mongo_uri. rewrite Henv. simpl default at 2.
    destruct (WktLoader.batch_iter _ _) as [bs stop].
    destruct (Mongo.write_batches _ _ _ _ _ _) as [ops r].
    simpl. eauto.
Qed.

(** The empty environment. *)
Lemma mongo_uri_absent_witness :
  (forall bulk_write a rows,
     CsvLoader.main bulk_write ∅ a rows = ([], Raise EnvironmentError))
  /\ GeoJsonLoader.default_mongo_uri ∅ = "mongodb://localhost:27017"
  /\ WktLoader.default_mongo_uri ∅ = "mongodb://localhost:27017"
  /\ (forall json_loads bulk_write a f, exists ops r,
        GeoJsonLoader.main json_loads bulk_write ∅ a f
        = (Mongo.MongoClient
             (default "mongodb://localhost:27017" (GeoJsonLoader.mongo_uri a)) :: ops, r))
  /\ (forall bulk_write a rd, exists ops r,
        WktLoader.main (H := WktLoader.Sample.points) bulk_write ∅ a rd
        = (Mongo.MongoClient
             (default "mongodb://localhost:27017" (WktLoader.mongo_uri a)) :: ops, r)).
Proof.
  apply (mongo_uri_absent (H := WktLoader.Sample.points) ∅). reflexivity.
Defined.

(** ** GeoJSON: arrays and features *)

Lemma normalize_feature_ok feat gf fl keep :
  GeoJsonLoader.is_feature feat = true ->
  exists d, GeoJsonLoader.normalize_feature feat gf fl keep = Ok d.
Proof.
  intros Hf. destruct feat; try discriminate.
  unfold GeoJsonLoader.normalize_feature. rewrite Hf. simpl. eauto.
Qed.

Lemma yield_features_of_ok gf fl keep (l : list pyobj) :
  exists docs,
    GeoJsonLoader.yield_features_of gf fl keep l = (docs, None)
    /\ Forall2 (fun feat d => GeoJsonLoader.normalize_feature feat gf fl keep = Ok d)
         (List.filter GeoJsonLoader.is_feature l) docs.
Proof.
  induction l as [|o l IH]; simpl.
  - exists []. split; [done | constructor].
  - destruct IH as (docs & Hrun & Hall).
    destruct (GeoJsonLoader.is_feature o) eqn:Hf.
    + destruct (normalize_feature_ok o gf fl keep Hf) as [d Hd].
      exists (d :: docs). rewrite Hd, Hrun. simpl. split; [done|].
      by constructor.
    + exists docs. by split.
Qed.

Lemma filter_no_feature (l : list pyobj) :
  Forall (fun o => GeoJsonLoader.is_feature o = false) l ->
  List.filter GeoJsonLoader.is_feature l = [].
Proof.
  induction 1 as [|o l Ho _ IH]; simpl; [done|]. by rewrite Ho.
Qed.

(** C10: an input that parses to an array is never malformed.  The
    documents it gives are those of its elements that are Features, in
    order; the other elements are passed over, so an array without a Feature
    gives no document and no error.  This holds for the whole file in the
    standard mode and for a line in the NDJSON mode, after which the loader
    goes on with the next lines. *)
Theorem array_input_never_malformed
    (json_loads : string -> result pyobj) (gf : string) (fl keep : bool)
    (text : string) (l : list pyobj) :
  json_loads text = Ok (PyList l) ->
  exists docs,
    Forall2 (fun feat d => GeoJsonLoader.normalize_feature feat gf fl keep = Ok d)
      (List.filter GeoJsonLoader.is_feature l) docs
    /\ (Forall (fun o => GeoJsonLoader.is_feature o = false) l -> docs = [])
    /\ (forall f, String.concat "" f = text ->
          GeoJsonLoader.yield_docs_from_geojson_stream json_loads gf fl keep f false
          = (docs, None))
    /\ (forall line rest, strip line = text -> text <> ""%string ->
          GeoJsonLoader.yield_docs_from_geojson_stream json_loads gf fl keep
            (line :: rest) true
          = GeoJsonLoader.gen_seq (docs, None)
              (GeoJsonLoader.yield_docs_from_geojson_stream json_loads gf fl keep
                 rest true)).
Proof.
  intros Hparse.
  destruct (yield_features_of_ok gf fl keep l) as (docs & Hrun & Hall).
  exists docs. split; [done|]. split; [|split].
  - intros Hnone. rewrite (filter_no_feature _ Hnone) in Hall. by inversion Hall.
  - intros f Hf. unfold GeoJsonLoader.yield_docs_from_geojson_stream.
    rewrite Hf, Hparse. exact Hrun.
  - intros line rest Hline Hne.
    unfold GeoJsonLoader.yield_docs_from_geojson_stream. simpl.
    rewrite Hline. apply String.eqb_neq in Hne. rewrite Hne, Hparse.
    unfold GeoJsonLoader.yield_docs_from_obj. simpl. by rewrite Hrun.
Qed.

(** The array [[1, {}]], which holds no Feature. *)
Lemma array_input_never_malformed_witness :
  exists docs,
    Forall2 (fun feat d => GeoJsonLoader.normalize_feature feat "geometry" false false = Ok d)
      (List.filter GeoJsonLoader.is_feature [PyInt 1; PyDict ∅]) docs
    /\ (Forall (fun o => GeoJsonLoader.is_feature o = false) [PyInt 1; PyDict ∅] -> docs = [])
    /\ (forall f, String.concat "" f = "[1, {}]"%string ->
          GeoJsonLoader.yield_docs_from_geojson_stream sample_json_loads
            "geometry" false false f false
          = (docs, None))
    /\ (forall line rest, strip line = "[1, {}]"%string -> "[1, {}]"%string <> ""%string ->
          GeoJsonLoader.yield_docs_from_geojson_stream sample_json_loads
            "geometry" false false (line :: rest) true
          = GeoJsonLoader.gen_seq (docs, None)
              (GeoJsonLoader.yield_docs_from_geojson_stream sample_json_loads
                 "geometry" false false rest true)).
Proof.
  apply (array_input_never_malformed sample_json_loads "geometry" false false
           "[1, {}]" [PyInt 1; PyDict ∅]).
  reflexivity.
Defined.

Lemma truthy_dict_false (pd : gmap string pyobj) :
  truthy (PyDict pd) = false -> pd = ∅.
Proof.
  simpl. rewrite negb_false_iff, bool_decide_eq_true.
  apply map_size_empty_iff.
Qed.

Lemma properties_of_feature (fd pd : gmap string pyobj) :
  fd !! "properties"%string = Some (PyDict pd) ->
  (if truthy (default (PyDict ∅) (fd !! "properties"%string))
   then default (PyDict ∅) (fd !! "properties"%string)
   else PyDict ∅) = PyDict pd.
Proof.
  intros ->. change (default _ (Some ?x)) with x.
  destruct (truthy (PyDict pd)) eqn:Ht; [done|].
  by rewrite (truthy_dict_false _ Ht).
Qed.

(** C4, as the code has it: a Feature whose properties are an object is
    flattened into a document that holds every property under its own key,
    with the property's value, over the geometry field when the names
    collide; the one exception is the key [_feature_id] when the Feature's
    id is retained, which then holds the id.  The document has a key
    [properties] only if the properties have one or the geometry field is
    called so.  Without flattening the properties are under [properties]. *)
Theorem normalize_feature_properties (fd pd : gmap string pyobj)
    (geometry_field : string) (keep_id : bool) :
  GeoJsonLoader.is_feature (PyDict fd) = true ->
  fd !! "properties"%string = Some (PyDict pd) ->
  (exists doc : gmap string pyobj,
     GeoJsonLoader.normalize_feature (PyDict fd) geometry_field true keep_id = Ok doc
     /\ (forall k v, pd !! k = Some v ->
           (k = "_feature_id"%string -> keep_id = true -> fd !! "id"%string = None) ->
           doc !! k = Some v)
     /\ (forall id, keep_id = true -> fd !! "id"%string = Some id ->
           doc !! "_feature_id"%string = Some id)
     /\ (is_Some (doc !! "properties"%string)
         <-> is_Some (pd !! "properties"%string) \/ geometry_field = "properties"%string))
  /\ (exists doc : gmap string pyobj,
        GeoJsonLoader.normalize_feature (PyDict fd) geometry_field false keep_id = Ok doc
        /\ doc !! "properties"%string = Some (PyDict pd)).
Proof.
  intros Hfeat Hprops.
  unfold GeoJsonLoader.normalize_feature. rewrite Hfeat. cbn [negb]. cbv zeta.
  rewrite (properties_of_feature fd pd Hprops).
  split.
  - eexists. split; [reflexivity|].
    set (doc1 := pd ∪ <[geometry_field := GeoJsonLoader.dict_get fd "geometry"]> ∅).
    assert (Hflat : forall k v, pd !! k = Some v -> doc1 !! k = Some v).
    { intros k v Hk. unfold doc1. by apply lookup_union_Some_l. }
    assert (Hprop : is_Some (doc1 !! "properties"%string)
                    <-> is_Some (pd !! "properties"%string)
                        \/ geometry_field = "properties"%string).
    { unfold doc1. rewrite lookup_union_is_Some, lookup_insert_is_Some.
      rewrite lookup_empty. split.
      - intros [?|[?|[_ [? ?]]]]; [by left | by right | done].
      - intros [?|?]; [by left | right; by left]. }
    split; [|split].
    + intros k v Hk Hid.
      destruct keep_id; [|by apply Hflat].
      destruct (fd !! "id"%string) eqn:Eid; [|by apply Hflat].
      rewrite lookup_insert_ne; [by apply Hflat|].
      intros <-. by specialize (Hid eq_refl eq_refl).
    + intros id -> ->. by rewrite lookup_insert_eq.
    + destruct keep_id; [|done].
      destruct (fd !! "id"%string); [|done].
      by rewrite lookup_insert_ne.
  - eexists. split; [reflexivity|].
    destruct keep_id; [|by rewrite lookup_insert_eq].
    destruct (fd !! "id"%string).
    + rewrite lookup_insert_ne by done. by rewrite lookup_insert_eq.
    + by rewrite lookup_insert_eq.
Qed.

(** The statement above on a Feature with an id and the property [name]. *)
Lemma normalize_feature_properties_witness :
  (exists doc : gmap string pyobj,
     GeoJsonLoader.normalize_feature (PyDict sample_feature) "geometry" true true = Ok doc
     /\ (forall k v, sample_properties !! k = Some v ->
           (k = "_feature_id"%string -> true = true ->
            sample_feature !! "id"%string = None) ->
           doc !! k = Some v)
     /\ (forall id, true = true -> sample_feature !! "id"%string = Some id ->
           doc !! "_feature_id"%string = Some id)
     /\ (is_Some (doc !! "properties"%string)
         <-> is_Some (sample_properties !! "properties"%string)
             \/ "geometry"%string = "properties"%string))
  /\ (exists doc : gmap string pyobj,
        GeoJsonLoader.normalize_feature (PyDict sample_feature) "geometry" false true = Ok doc
        /\ doc !! "properties"%string = Some (PyDict sample_properties)).
Proof.
  apply (normalize_feature_properties sample_feature sample_properties "geometry" true).
  - vm_compute. reflexivity.
  - vm_compute. reflexivity.
Defined.

(** C4, as stated, fails: with the id retained, a property called
    [_feature_id] does not keep its value in the flattened document; the
    Feature's id is written over it. *)
Lemma flattened_feature_id_overwritten :
  GeoJsonLoader.is_feature (PyDict clashing_feature) = true
  /\ clashing_feature !! "properties"%string = Some (PyDict clashing_properties)
  /\ clashing_properties !! "_feature_id"%string = Some (PyStr "x")
  /\ exists doc : gmap string pyobj,
       GeoJsonLoader.normalize_feature (PyDict clashing_feature) "geometry" true true
       = Ok doc
       /\ doc !! "_feature_id"%string = Some (PyInt 7)
       /\ doc !! "_feature_id"%string <> Some (PyStr "x").
Proof.
  split; [vm_compute; reflexivity|].
  split; [vm_compute; reflexivity|].
  split; [vm_compute; reflexivity|].
  eexists. split; [reflexivity|].
  split; [vm_compute; reflexivity|].
  vm_compute. discriminate.
Qed.

(** ** WKT rows *)

Lemma wkt_coerce_value_total {RT : Runtime} (v : option string) :
  exists x, WktLoader.coerce_value v = Ok x.
Proof.
  destruct v as [v|]; simpl; [|eauto].
  destruct (_ || _); [eauto|].
  destruct (isdigit _ && _); simpl.
  - destruct (py_int _); simpl; [eauto|].
    destruct (py_float _); simpl; eauto.
  - destruct (py_float _); simpl; eauto.
Qed.

Lemma fill_doc_total {RT : Runtime} (wkt_field : string) (items : list (string * option string))
    (doc : gmap string pyobj) :
  exists d, WktLoader.fill_doc wkt_field items doc = Ok d.
Proof.
  revert doc. induction items as [|[k v] rest IH]; intros doc; simpl; [eauto|].
  destruct (String.eqb k wkt_field); [apply IH|].
  destruct (wkt_coerce_value_total v) as [x ->]. simpl. apply IH.
Qed.

(** C5, as the code has it: in the loop over the rows, a row whose WKT cell
    is missing, empty or blank yields nothing and the loop goes on; a row
    whose WKT parses and reprojects yields exactly one document; a row
    whose WKT does not parse, or does not reproject, yields nothing and ends
    the loop with the exception. *)
Theorem wkt_row_skipped_or_emitted `{WktLoader.GeoLib} {RT : Runtime}
    (wkt_field geometry_field crs_in crs_out : string)
    (row : gmap string (option string)) (rest : list (gmap string (option string))) :
  let loop := WktLoader.yield_rows wkt_field geometry_field crs_in crs_out in
  let raw_wkt := default None (row !! wkt_field) in
  (match raw_wkt with None => True | Some w => strip w = ""%string end ->
     loop (row :: rest) = loop rest)
  /\ (forall w g g', raw_wkt = Some w -> strip w <> ""%string ->
        WktLoader.parse_wkt w = Ok g ->
        WktLoader.reproject_geometry g crs_in crs_out = Ok g' ->
        exists doc, loop (row :: rest) = (doc :: fst (loop rest), snd (loop rest)))
  /\ (forall w e, raw_wkt = Some w -> strip w <> ""%string ->
        bind (WktLoader.parse_wkt w)
             (fun g => WktLoader.reproject_geometry g crs_in crs_out) = Raise e ->
        loop (row :: rest) = ([], Some e)).
Proof.
  intros loop raw_wkt. subst loop. simpl. unfold WktLoader.doc_of_row.
  fold raw_wkt. split; [|split].
  - destruct raw_wkt as [w|]; [|done]. intros ->. done.
  - intros w g g' -> Hne Hparse Hproj. apply String.eqb_neq in Hne.
    rewrite Hne, Hparse. simpl. rewrite Hproj. simpl.
    destruct (fill_doc_total wkt_field (map_to_list row)
                {[ geometry_field := WktLoader.geom_to_geojson g' ]}) as [d ->].
    simpl. exists d. by destruct (WktLoader.yield_rows _ _ _ _ rest).
  - intros w e -> Hne Hfail. apply String.eqb_neq in Hne. rewrite Hne.
    destruct (WktLoader.parse_wkt w) as [g|e']; simpl in *.
    + by rewrite Hfail.
    + by injection Hfail as ->.
Qed.

(** A row with the point [POINT (30 10)] yields one document. *)
Lemma wkt_row_skipped_or_emitted_witness :
  let loop := WktLoader.yield_rows (H := WktLoader.Sample.points)
                "the_geom" "geometry" "EPSG:4326" "EPSG:4326" in
  exists doc, loop [point_row] = (doc :: fst (loop []), snd (loop [])).
Proof.
  intros loop.
  apply (proj1 (proj2 (wkt_row_skipped_or_emitted (H := WktLoader.Sample.points)
                  "the_geom" "geometry" "EPSG:4326" "EPSG:4326" point_row []))
           "POINT (30 10)"%string (30%Z, 10%Z) (30%Z, 10%Z)).
  - vm_compute. reflexivity.
  - vm_compute. discriminate.
  - vm_compute. reflexivity.
  - vm_compute. reflexivity.
Defined.

(** C5, as stated, fails: a row whose WKT cell is not blank and does not
    parse produces no document; the loader stops with a [ValueError]. *)
Lemma unparsable_wkt_row_yields_nothing :
  default None (garbage_row !! "the_geom"%string) = Some "garbage"%string
  /\ strip "garbage" <> ""%string
  /\ WktLoader.yield_docs_from_csv (H := WktLoader.Sample.points)
       "the_geom" "geometry" "EPSG:4326" "EPSG:4326"
       {| WktLoader.fieldnames := Some ["the_geom"; "a"]%string;
          WktLoader.rows := [garbage_row] |}
     = ([], Some ValueError).
Proof.
  split; [vm_compute; reflexivity|].
  split; [vm_compute; discriminate|].
  vm_compute. reflexivity.
Qed.

(** ** Value coercion: totality and order of the checks *)

Lemma py_int_raises {RT : Runtime} s e : py_int s = Raise e -> e = ValueError.
Proof.
  unfold py_int. destruct (split_sign _) as [neg body].
  destruct (drop_underscores _ _); [|congruence].
  destruct (_ && _); [|congruence].
  destruct (over_digit_limit _); congruence.
Qed.

Lemma py_float_raises s e : py_float s = Raise e -> e = ValueError.
Proof.
  unfold py_float. destruct (drop_underscores _ _); [|congruence].
  destruct (parse_decimal _); [congruence|].
  destruct (parse_inf_or_nan _); congruence.
Qed.

Lemma startswith_zero v :
  startswith v "0" = match String.get 0 v with
                     | Some c => Ascii.eqb c "0"
                     | None => false
                     end.
Proof.
  destruct v as [|c r]; [done|]. unfold startswith.
  cbn [String.prefix String.get].
  destruct (ascii_dec "0" c) as [<-|Hne]; [by destruct r|].
  symmetry. apply Ascii.eqb_neq. congruence.
Qed.

(** Strings of digits: no white space, no sign, no underscore, no comma. *)

Lemma isdigit_char_not_space_num c : isdigit_char c = true -> negb (isspace_num c) = true.
Proof. each_char c. Qed.

Lemma isdigit_char_not_underscore c : isdigit_char c = true -> Ascii.eqb c "_" = false.
Proof. each_char c. Qed.

Lemma isdigit_char_not_comma c : isdigit_char c = true -> Ascii.eqb c "," = false.
Proof. each_char c. Qed.

Lemma digits_strip_num s :
  forallb_str isdigit_char s = true -> strip_by isspace_num s = s.
Proof.
  intros Hs. apply strip_by_none.
  eapply forallb_str_impl; [apply isdigit_char_not_space_num | done].
Qed.

Lemma digits_split_sign s :
  forallb_str isdigit_char s = true -> split_sign s = (false, s).
Proof.
  destruct s as [|c r]; [done|]. simpl. rewrite andb_true_iff. intros [Hc _].
  revert Hc. each_char c.
Qed.

Lemma digits_drop_underscores prev s :
  Ascii.eqb prev "_" = false ->
  forallb_str isdigit_char s = true -> drop_underscores prev s = Some s.
Proof.
  revert prev. induction s as [|c r IH]; intros prev Hprev; simpl.
  - by rewrite Hprev.
  - rewrite andb_true_iff. intros [Hc Hr].
    pose proof (isdigit_char_not_underscore c Hc) as Hu.
    rewrite Hu, Hprev. simpl. by rewrite (IH c Hu Hr).
Qed.

Lemma digits_replace_comma s :
  forallb_str isdigit_char s = true -> replace "," "" s = s.
Proof.
  induction s as [|c r IH]; simpl; [done|].
  rewrite andb_true_iff. intros [Hc Hr].
  by rewrite (isdigit_char_not_comma c Hc), (IH Hr).
Qed.

Lemma digits_span s :
  forallb_str isdigit_char s = true -> forallb_str isdecimal_char s = false ->
  exists ip c r,
    span_digits s = (ip, String c r)
    /\ isdigit_char c = true /\ isdecimal_char c = false.
Proof.
  induction s as [|c r IH]; simpl; [done|].
  rewrite andb_true_iff. intros [Hc Hr] Hdec.
  destruct (isdecimal_char c) eqn:Ec.
  - simpl in Hdec. destruct (IH Hr Hdec) as (ip & c' & r' & -> & Hc' & Ec').
    by exists (String c ip), c', r'.
  - by exists ""%string, c, r.
Qed.

Lemma superscript_ends_number c r :
  isdigit_char c = true -> isdecimal_char c = false ->
  parse_exponent (String c r) = None
  /\ match String c r with
     | String "." r' => span_digits r'
     | _ => (""%string, String c r)
     end = (""%string, String c r).
Proof. revert r. each_char c. Qed.

Lemma digits_parse_decimal s :
  forallb_str isdigit_char s = true -> forallb_str isdecimal_char s = false ->
  parse_decimal s = None.
Proof.
  intros Hs Hdec. unfold parse_decimal. rewrite (digits_split_sign s Hs).
  destruct (digits_span s Hs Hdec) as (ip & c & r & -> & Hc & Ec).
  destruct (superscript_ends_number c r Hc Ec) as [Hexp ->].
  rewrite Hexp. by destruct (String.eqb _ _).
Qed.

Lemma digit_not_inf_nan c r :
  isdigit_char c = true ->
  parse_inf_or_nan (String c r) = None.
Proof. revert r. each_char c. Qed.

Lemma digits_py_float s :
  isdigit s = true -> forallb_str isdecimal_char s = false ->
  py_float (replace "," "" s) = Raise ValueError.
Proof.
  unfold isdigit. rewrite andb_true_iff. intros [Hne Hs] Hdec.
  unfold py_float.
  rewrite (digits_replace_comma s Hs), (digits_strip_num s Hs).
  rewrite (digits_drop_underscores "000"%char s eq_refl Hs).
  rewrite (digits_parse_decimal s Hs Hdec).
  destruct s as [|c r]; [done|]. simpl in Hs. apply andb_true_iff in Hs as [Hc _].
  by rewrite (digit_not_inf_nan c r Hc).
Qed.

Lemma digits_py_int {RT : Runtime} s :
  isdigit s = true ->
  py_int s = if forallb_str isdecimal_char s
             then if over_digit_limit (N.of_nat (String.length s))
                  then Raise ValueError
                  else Ok (Z.of_N (digits_value 0 s))
             else Raise ValueError.
Proof.
  unfold isdigit. rewrite andb_true_iff. intros [Hne Hs].
  unfold py_int.
  rewrite (digits_strip_num s Hs), (digits_split_sign s Hs).
  rewrite (digits_drop_underscores "000"%char s eq_refl Hs), Hne. simpl.
  by destruct (forallb_str isdecimal_char s).
Qed.

Lemma isdecimal_isdigit c : isdecimal_char c = true -> isdigit_char c = true.
Proof. unfold isdigit_char. by intros ->. Qed.

Lemma decimal_isdigit t :
  t <> ""%string -> forallb_str isdecimal_char t = true -> isdigit t = true.
Proof.
  intros Hne Hdec. unfold isdigit. apply String.eqb_neq in Hne. rewrite Hne.
  by apply (forallb_str_impl _ _ _ isdecimal_isdigit).
Qed.

Lemma string_app_empty_r (t : string) : (t ++ "")%string = t.
Proof.
  induction t as [|c r IH]; [done|].
  change (String c (r ++ "")%string = String c r). by rewrite IH.
Qed.

Lemma span_digits_decimal t :
  forallb_str isdecimal_char t = true -> span_digits t = (t, ""%string).
Proof.
  induction t as [|c r IH]; simpl; [done|].
  rewrite andb_true_iff. intros [-> Hr]. by rewrite (IH Hr).
Qed.

Lemma decimal_py_float t :
  t <> ""%string -> forallb_str isdecimal_char t = true ->
  py_float (replace "," "" t) = Ok (decimal_to_float false (digits_value 0 t) 0).
Proof.
  intros Hne Hdec.
  pose proof (forallb_str_impl _ _ _ isdecimal_isdigit Hdec) as Hs.
  unfold py_float.
  rewrite (digits_replace_comma t Hs), (digits_strip_num t Hs).
  rewrite (digits_drop_underscores "000"%char t eq_refl Hs).
  unfold parse_decimal.
  rewrite (digits_split_sign t Hs), (span_digits_decimal t Hdec).
  rewrite string_app_empty_r. apply String.eqb_neq in Hne. by rewrite Hne.
Qed.

Lemma csv_coerce_order_eq {RT : Runtime} (v : option string) :
  CsvLoader.coerce_value v = Ok (csv_coerce_order v).
Proof.
  destruct v as [v|]; [|done].
  unfold CsvLoader.coerce_value, csv_coerce_order, int_refused_float,
    coerce_by_precedence, csv_null_check, int_check, integer_guard.
  destruct (String.eqb (strip v) "") eqn:Hblank.
  - apply String.eqb_eq in Hblank. by rewrite Hblank.
  - destruct (isdigit (strip v) && _) eqn:Hguard.
    + destruct (py_int (strip v)) as [z|e] eqn:Hint; simpl; [done|].
      rewrite (py_int_raises _ _ Hint). by destruct (float_check (strip v)).
    + unfold float_check.
      destruct (py_float _) as [f|e] eqn:Hfl; simpl; [done|].
      by rewrite (py_float_raises _ _ Hfl).
Qed.

Lemma wkt_coerce_precedence {RT : Runtime} (v : option string) :
  WktLoader.coerce_value v = Ok (coerce_by_precedence wkt_null_check v).
Proof.
  destruct v as [v|]; [|done].
  unfold WktLoader.coerce_value, coerce_by_precedence, wkt_null_check.
  destruct (String.eqb (strip v) "" || WktLoader.is_null_token (strip v)); [done|].
  unfold int_check, float_check. rewrite <- startswith_zero.
  destruct (isdigit (strip v) && _); simpl.
  - destruct (py_int (strip v)) as [z|e]; simpl; [done|].
    by destruct (py_float _).
  - by destruct (py_float _).
Qed.

Lemma coerce_by_precedence_scalar {RT : Runtime} null_check v :
  is_scalar (coerce_by_precedence null_check v) = true.
Proof.
  destruct v as [v|]; [|done]. unfold coerce_by_precedence.
  destruct (null_check _); [done|].
  destruct (int_check _); [done|]. by destruct (float_check _).
Qed.

Lemma csv_coerce_order_scalar {RT : Runtime} v :
  is_scalar (csv_coerce_order v) = true.
Proof.
  destruct v as [s|]; [|done]. unfold csv_coerce_order.
  destruct (int_refused_float _); [done|]. apply coerce_by_precedence_scalar.
Qed.

(** C8, as the code has it: both [coerce_value] functions return, on
    [None] and on every string, a null, an integer, a float or a string,
    without raising.  The value of the WKT loader's is the one the order
    null check, integer check, float check, string gives.  The value of the
    CSV loader's is that one too, except for a string that passes the
    integer check (all digits, no leading zero) and that [int()] refuses
    while [float()] would read it: the CSV loader returns it as a string,
    without the float check. *)
Theorem coerce_value_total {RT : Runtime} (v : option string) :
  (exists x, CsvLoader.coerce_value v = Ok x
             /\ is_scalar x = true
             /\ x = match v with
                    | Some s =>
                        match int_refused_float (strip s) with
                        | Some _ => PyStr (strip s)
                        | None => coerce_by_precedence csv_null_check v
                        end
                    | None => coerce_by_precedence csv_null_check v
                    end)
  /\ (exists x, WktLoader.coerce_value v = Ok x
                /\ is_scalar x = true
                /\ x = coerce_by_precedence wkt_null_check v).
Proof.
  split; eexists; (split; [|split]).
  - apply csv_coerce_order_eq.
  - apply csv_coerce_order_scalar.
  - by destruct v.
  - apply wkt_coerce_precedence.
  - apply coerce_by_precedence_scalar.
  - reflexivity.
Qed.

(** C8, as stated, fails: on a string of 4301 digits, one more than
    [int()] accepts as CPython starts, the CSV loader returns the string,
    where the order null check, integer check, float check, string gives
    the float that [float()] reads, infinity. *)
Lemma csv_coerce_value_skips_float_check :
  CsvLoader.coerce_value (Some digits_4301) = Ok (PyStr digits_4301)
  /\ coerce_by_precedence csv_null_check (Some digits_4301)
     = PyFloat (S754_infinity false)
  /\ CsvLoader.coerce_value (Some digits_4301)
     <> Ok (coerce_by_precedence csv_null_check (Some digits_4301)).
Proof.
  split; [vm_compute; reflexivity|].
  split; [vm_compute; reflexivity|].
  vm_compute. discriminate.
Qed.

Lemma int_refused_float_blank {RT : Runtime} : int_refused_float "" = None.
Proof. reflexivity. Qed.





(** * Further properties of the loaders *)

(** ** Batching a source that fails, and small batch sizes *)

Lemma batch_loop_raises {A} (n : Z) (e : exn) (items buf : list A) :
  (1 <= n)%Z -> (Z.of_nat (length buf) < n)%Z ->
  exists bs tail,
    CsvLoader.batch_loop items (Some e) n buf = (bs, Some e)
    /\ buf ++ items = concat bs ++ tail
    /\ Forall (fun b => Z.of_nat (length b) = n) bs
    /\ (Z.of_nat (length tail) < n)%Z.
Proof.
  intros Hn. revert buf.
  induction items as [|item rest IH]; intros buf Hbuf; simpl.
  - exists [], buf. by rewrite app_nil_r.
  - assert (Hlen : length (buf ++ [item]) = S (length buf))
      by (rewrite length_app; simpl; lia).
    destruct (Z.leb_spec n (Z.of_nat (length (buf ++ [item])))) as [Hfull|Hroom].
    + destruct (IH [] ltac:(simpl; lia)) as (bs & tail & Hrun & Hcat & Hsize & Htail).
      rewrite Hrun. exists ((buf ++ [item]) :: bs), tail.
      split; [done|]. split; [|split; [|done]].
      * simpl in Hcat. simpl. rewrite Hcat, <- !app_assoc. done.
      * constructor; [lia | done].
    + destruct (IH (buf ++ [item]) Hroom) as (bs & tail & Hrun & Hcat & Hsize & Htail).
      exists bs, tail. split; [done|]. split; [|done].
      by rewrite <- Hcat, <- app_assoc.
Qed.

(** X1: when the source of the batcher raises after yielding [l], the
    batcher has emitted full batches only, of exactly [B] elements each, in
    order from the start of [l]; the fewer than [B] elements left in the
    buffer are never emitted, and the exception goes on to the caller. *)
Theorem batch_source_raises {A} (l : list A) (e : exn) (B : Z) :
  (1 <= B)%Z ->
  exists bs tail,
    CsvLoader.batch (l, Some e) B = (bs, Some e)
    /\ GeoJsonLoader.batch_iter (l, Some e) B = (bs, Some e)
    /\ WktLoader.batch_iter (l, Some e) B = (bs, Some e)
    /\ l = concat bs ++ tail
    /\ Forall (fun b => Z.of_nat (length b) = B) bs
    /\ (Z.of_nat (length tail) < B)%Z.
Proof.
  intros HB.
  destruct (batch_loop_raises B e l [] HB ltac:(simpl; lia))
    as (bs & tail & Hrun & Hcat & Hsize & Htail).
  exists bs, tail. do 3 (split; [exact Hrun|]). done.
Qed.

(** Five elements, batches of two, then an error: the fifth is lost. *)
Lemma batch_source_raises_witness :
  exists bs tail,
    CsvLoader.batch ([1; 2; 3; 4; 5]%Z, Some ValueError) 2 = (bs, Some ValueError)
    /\ GeoJsonLoader.batch_iter ([1; 2; 3; 4; 5]%Z, Some ValueError) 2 = (bs, Some ValueError)
    /\ WktLoader.batch_iter ([1; 2; 3; 4; 5]%Z, Some ValueError) 2 = (bs, Some ValueError)
    /\ [1; 2; 3; 4; 5]%Z = concat bs ++ tail
    /\ Forall (fun b => Z.of_nat (length b) = 2%Z) bs
    /\ (Z.of_nat (length tail) < 2)%Z.
Proof. apply (batch_source_raises [1; 2; 3; 4; 5]%Z ValueError 2). lia. Defined.

Lemma batch_loop_singletons {A} (n : Z) (stop : option exn) (items : list A) :
  (n <= 1)%Z ->
  CsvLoader.batch_loop items stop n [] = (map (fun x => [x]) items, stop).
Proof.
  intros Hn. induction items as [|item rest IH].
  - simpl. by destruct stop.
  - cbn [CsvLoader.batch_loop app length]. change (Z.of_nat 1) with 1%Z.
    by rewrite (proj2 (Z.leb_le n 1) Hn), IH.
Qed.

(** X2: with a batch size of one, zero or less, every element is a batch
    of its own; no size is refused and none makes the batcher loop or
    hold elements back. *)
Theorem batch_size_at_most_one {A} (l : list A) (stop : option exn) (B : Z) :
  (B <= 1)%Z ->
  CsvLoader.batch (l, stop) B = (map (fun x => [x]) l, stop)
  /\ GeoJsonLoader.batch_iter (l, stop) B = (map (fun x => [x]) l, stop)
  /\ WktLoader.batch_iter (l, stop) B = (map (fun x => [x]) l, stop).
Proof.
  intros HB. do 2 (split; [exact (batch_loop_singletons B stop l HB)|]).
  exact (batch_loop_singletons B stop l HB).
Qed.

(** Batch size zero. *)
Lemma batch_size_at_most_one_witness :
  CsvLoader.batch ([1; 2; 3]%Z, None) 0 = (map (fun x => [x]) [1; 2; 3]%Z, None)
  /\ GeoJsonLoader.batch_iter ([1; 2; 3]%Z, None) 0 = (map (fun x => [x]) [1; 2; 3]%Z, None)
  /\ WktLoader.batch_iter ([1; 2; 3]%Z, None) 0 = (map (fun x => [x]) [1; 2; 3]%Z, None).
Proof. apply (batch_size_at_most_one [1; 2; 3]%Z None 0). lia. Defined.

(** ** Writing the batches *)

Lemma write_batches_all_inserted bulk_write db collection bs stop total :
  all_inserted bulk_write ->
  Mongo.write_batches bulk_write db collection bs stop total
  = (map (Mongo.BulkWrite db collection) bs,
     match stop with
     | Some e => Raise e
     | None => Ok (total + Z.of_nat (length (concat bs)))%Z
     end).
Proof.
  intros Hall. revert total. induction bs as [|b bs IH]; intros total; simpl.
  - destruct stop; [done|]. by rewrite Z.add_0_r.
  - rewrite Hall, IH. simpl. destruct stop; [done|].
    rewrite length_app. do 2 f_equal. lia.
Qed.

(** X3: once a batch is refused by the server, the loop over the batches
    ends with that error; the batches after it are never sent, whatever the
    source would still have yielded. *)
Theorem bulk_write_error_stops bulk_write db collection
    (pre post : list (list Mongo.document)) (b : list Mongo.document)
    (e : exn) (stop : option exn) (total : Z) :
  Forall (fun b' => exists k, bulk_write b' = Ok k) pre ->
  bulk_write b = Raise e ->
  Mongo.write_batches bulk_write db collection (pre ++ b :: post) stop total
  = (map (Mongo.BulkWrite db collection) (pre ++ [b]), Raise e).
Proof.
  intros Hpre Hb. revert total.
  induction Hpre as [|b' pre [k Hk] _ IH]; intros total; simpl.
  - by rewrite Hb.
  - by rewrite Hk, IH.
Qed.

(** A server that refuses everything, and two batches. *)
Lemma bulk_write_error_stops_witness :
  Mongo.write_batches (fun _ => Raise BulkWriteError) "db" "c"
    ([] ++ [∅] :: [[∅; ∅]]) None 0
  = (map (Mongo.BulkWrite "db" "c") ([] ++ [[∅]]), Raise BulkWriteError).
Proof.
  apply (bulk_write_error_stops (fun _ => Raise BulkWriteError) "db" "c"
           [] [[∅; ∅]] [∅] BulkWriteError None 0).
  - constructor.
  - reflexivity.
Defined.

(** X4: the CSV loader, given a connection string, a batch size of at
    least one, a source that ends normally and a server that inserts every
    document, connects, drops the collection if asked, and writes every row
    exactly once, in order; the total it reports is the number of rows,
    whatever the batch size. *)
Theorem csv_main_writes_every_row bulk_write (environ : gmap string string)
    (a : CsvLoader.args) (docs : list Mongo.document) (uri : string) :
  environ !! "MONGO_URI"%string = Some uri -> uri <> ""%string ->
  (1 <= CsvLoader.batch_size a)%Z ->
  all_inserted bulk_write ->
  exists bs,
    CsvLoader.main bulk_write environ a (docs, None)
    = (Mongo.MongoClient uri
       :: (if CsvLoader.drop a
           then [Mongo.DropCollection (CsvLoader.db a) (CsvLoader.collection a)]
           else [])
       ++ map (Mongo.BulkWrite (CsvLoader.db a) (CsvLoader.collection a)) bs,
       Ok (Z.of_nat (length docs)))
    /\ concat bs = docs.
Proof.
  intros Henv Huri HB Hall.
  destruct (batch_loop_spec (CsvLoader.batch_size a) docs [] HB ltac:(simpl; lia))
    as (bs & Hrun & Hcat & _ & _).
  exists bs. split; [|done].
  unfold CsvLoader.main. rewrite Henv.
  destruct uri as [|c u]; [done|].
  unfold CsvLoader.batch. simpl fst. simpl snd. rewrite Hrun.
  rewrite (write_batches_all_inserted _ _ _ _ _ _ Hall), Hcat. done.
Qed.

(** Three rows in batches of two. *)
Lemma csv_main_writes_every_row_witness :
  exists bs,
    CsvLoader.main (fun docs => Ok (Z.of_nat (length docs)))
      {[ "MONGO_URI"%string := "mongodb://h"%string ]}
      {| CsvLoader.csv := "f.csv"; CsvLoader.db := "d"; CsvLoader.collection := "c";
         CsvLoader.batch_size := 2; CsvLoader.normalize_keys := false;
         CsvLoader.drop := true; CsvLoader.encoding := "utf-8" |}
      ([∅; ∅; ∅], None)
    = (Mongo.MongoClient "mongodb://h"
       :: [Mongo.DropCollection "d" "c"]
       ++ map (Mongo.BulkWrite "d" "c") bs,
       Ok (Z.of_nat (length [∅; ∅; ∅ : Mongo.document])))
    /\ concat bs = [∅; ∅; ∅].
Proof.
  apply (csv_main_writes_every_row (fun docs => Ok (Z.of_nat (length docs)))
           {[ "MONGO_URI"%string := "mongodb://h"%string ]}
           {| CsvLoader.csv := "f.csv"; CsvLoader.db := "d"; CsvLoader.collection := "c";
              CsvLoader.batch_size := 2; CsvLoader.normalize_keys := false;
              CsvLoader.drop := true; CsvLoader.encoding := "utf-8" |}
           [∅; ∅; ∅] "mongodb://h").
  - vm_compute. reflexivity.
  - discriminate.
  - simpl. lia.
  - intros docs. reflexivity.
Defined.



Lemma write_batches_ops bulk_write db collection bs stop total :
  exists written,
    fst (Mongo.write_batches bulk_write db collection bs stop total)
    = map (Mongo.BulkWrite db collection) written.
Proof.
  revert total. induction bs as [|b bs IH]; intros total; simpl.
  - by exists [].
  - destruct (bulk_write b) as [k|e].
    + destruct (IH (total + k)%Z) as [written Hw].
      destruct (Mongo.write_batches _ _ _ bs _ _) as [ops r]. simpl in *.
      exists (b :: written). by rewrite Hw.
    + by exists [b].
Qed.

(** X6: the GeoJSON loader connects, drops the collection if asked and
    creates the index if asked, in this order, before it reads the input;
    whatever follows is bulk writes.  An input that [json.load] refuses
    therefore ends the run after the collection was dropped and the index
    created, with nothing written. *)
Theorem geojson_main_admin_first json_loads bulk_write
    (environ : gmap string string) (a : GeoJsonLoader.args) (f : list string) :
  exists written r,
    GeoJsonLoader.main json_loads bulk_write environ a f
    = (Mongo.MongoClient (GeoJsonLoader.args_mongo_uri environ a)
       :: (if GeoJsonLoader.drop a
           then [Mongo.DropCollection (GeoJsonLoader.db a) (GeoJsonLoader.collection a)]
           else [])
       ++ (if GeoJsonLoader.create_index a
           then [Mongo.CreateIndex (GeoJsonLoader.db a) (GeoJsonLoader.collection a)
                   (GeoJsonLoader.geometry_field a)]
           else [])
       ++ map (Mongo.BulkWrite (GeoJsonLoader.db a) (GeoJsonLoader.collection a)) written,
       r)
    /\ (forall e, GeoJsonLoader.ndjson a = false ->
          json_loads (String.concat "" f) = Raise e ->
          written = [] /\ r = Raise e).
Proof.
  unfold GeoJsonLoader.main.
  destruct (GeoJsonLoader.batch_iter _ _) as [bs stop] eqn:Hbatch.
  destruct (write_batches_ops bulk_write (GeoJsonLoader.db a)
              (GeoJsonLoader.collection a) bs stop 0) as [written Hw].
  destruct (Mongo.write_batches _ _ _ bs stop 0) as [ops r] eqn:Hrun.
  simpl in Hw. subst ops.
  exists written, r. split.
  - simpl. by rewrite <- app_assoc.
  - intros e Hnd Hfail. revert Hbatch.
    unfold GeoJsonLoader.yield_docs_from_geojson_stream. rewrite Hnd, Hfail.
    cbn. intros [= <- <-]. simpl in Hrun. injection Hrun as Hops <-.
    split; [|done]. symmetry in Hops. by apply map_eq_nil in Hops.
Qed.

(** A text that is not JSON, with [--drop] and [--create-index]. *)
Lemma geojson_main_admin_first_witness :
  exists written r,
    GeoJsonLoader.main sample_json_loads (fun docs => Ok (Z.of_nat (length docs)))
      ∅ sample_geojson_args ["{"%string]
    = (Mongo.MongoClient (GeoJsonLoader.args_mongo_uri ∅ sample_geojson_args)
       :: (if GeoJsonLoader.drop sample_geojson_args
           then [Mongo.DropCollection (GeoJsonLoader.db sample_geojson_args)
                   (GeoJsonLoader.collection sample_geojson_args)]
           else [])
       ++ (if GeoJsonLoader.create_index sample_geojson_args
           then [Mongo.CreateIndex (GeoJsonLoader.db sample_geojson_args)
                   (GeoJsonLoader.collection sample_geojson_args)
                   (GeoJsonLoader.geometry_field sample_geojson_args)]
           else [])
       ++ map (Mongo.BulkWrite (GeoJsonLoader.db sample_geojson_args)
                 (GeoJsonLoader.collection sample_geojson_args)) written,
       r)
    /\ written = [] /\ r = Raise JSONDecodeError.
Proof.
  destruct (geojson_main_admin_first sample_json_loads
              (fun docs => Ok (Z.of_nat (length docs)))
              ∅ sample_geojson_args ["{"%string])
    as (written & r & Hrun & Hfail).
  exists written, r. split; [exact Hrun|].
  apply (Hfail JSONDecodeError); reflexivity.
Defined.

(** X7: the WKT loader connects, drops the collection if asked and creates
    the index if asked, in this order, before it looks at the header of the
    CSV file; whatever follows is bulk writes.  A file without a header, or
    whose header lacks the WKT column, therefore ends the run with a
    [ValueError] after the collection was dropped and the index created,
    with nothing written. *)
Theorem wkt_main_admin_first `{WktLoader.GeoLib} {RT : Runtime} bulk_write
    (environ : gmap string string) (a : WktLoader.args) (rd : WktLoader.reader) :
  exists written r,
    WktLoader.main bulk_write environ a rd
    = (Mongo.MongoClient (WktLoader.args_mongo_uri environ a)
       :: (if WktLoader.drop a
           then [Mongo.DropCollection (WktLoader.db a) (WktLoader.collection a)]
           else [])
       ++ (if WktLoader.create_index a
           then [Mongo.CreateIndex (WktLoader.db a) (WktLoader.collection a)
                   (WktLoader.geometry_field a)]
           else [])
       ++ map (Mongo.BulkWrite (WktLoader.db a) (WktLoader.collection a)) written,
       r)
    /\ (WktLoader.fieldnames rd = None \/ WktLoader.fieldnames rd = Some []
        \/ (exists names, WktLoader.fieldnames rd = Some names
                          /\ WktLoader.wkt_field a ∉ names) ->
        written = [] /\ r = Raise ValueError).
Proof.
  unfold WktLoader.main.
  destruct (WktLoader.batch_iter _ _) as [bs stop] eqn:Hbatch.
  destruct (write_batches_ops bulk_write (WktLoader.db a)
              (WktLoader.collection a) bs stop 0) as [written Hw].
  destruct (Mongo.write_batches _ _ _ bs stop 0) as [ops r] eqn:Hrun.
  simpl in Hw. subst ops.
  exists written, r. split.
  - simpl. by rewrite <- app_assoc.
  - intros Hhead.
    assert (Hstream : WktLoader.yield_docs_from_csv (WktLoader.wkt_field a)
              (WktLoader.geometry_field a) (WktLoader.crs_in a) (WktLoader.crs_out a) rd
            = ([], Some ValueError)).
    { unfold WktLoader.yield_docs_from_csv.
      destruct Hhead as [-> | [-> | (names & -> & Hnot)]]; [done | done |].
      destruct names as [|n names]; [done|].
      destruct (existsb _ _) eqn:Hex; [|done].
      exfalso. apply Hnot. apply existsb_exists in Hex as (x & Hin & Heq).
      apply String.eqb_eq in Heq. subst x. by apply list_elem_of_In. }
    rewrite Hstream in Hbatch. cbn in Hbatch. injection Hbatch as <- <-.
    simpl in Hrun. injection Hrun as Hops <-.
    split; [|done]. symmetry in Hops. by apply map_eq_nil in Hops.
Qed.

(** A file whose header has no [the_geom]. *)
Lemma wkt_main_admin_first_witness :
  exists written r,
    WktLoader.main (H := WktLoader.Sample.points)
      (fun docs => Ok (Z.of_nat (length docs))) ∅ sample_wkt_args
      {| WktLoader.fieldnames := Some ["a"%string]; WktLoader.rows := [] |}
    = (Mongo.MongoClient (WktLoader.args_mongo_uri ∅ sample_wkt_args)
       :: (if WktLoader.drop sample_wkt_args
           then [Mongo.DropCollection (WktLoader.db sample_wkt_args)
                   (WktLoader.collection sample_wkt_args)]
           else [])
       ++ (if WktLoader.create_index sample_wkt_args
           then [Mongo.CreateIndex (WktLoader.db sample_wkt_args)
                   (WktLoader.collection sample_wkt_args)
                   (WktLoader.geometry_field sample_wkt_args)]
           else [])
       ++ map (Mongo.BulkWrite (WktLoader.db sample_wkt_args)
                 (WktLoader.collection sample_wkt_args)) written,
       r)
    /\ written = [] /\ r = Raise ValueError.
Proof.
  destruct (wkt_main_admin_first (H := WktLoader.Sample.points)
              (fun docs => Ok (Z.of_nat (length docs))) ∅ sample_wkt_args
              {| WktLoader.fieldnames := Some ["a"%string]; WktLoader.rows := [] |})
    as (written & r & Hrun & Hfail).
  exists written, r. split; [exact Hrun|].
  apply Hfail. right. right. exists ["a"%string]. split; [reflexivity|].
  intros Hin. apply list_elem_of_In in Hin. simpl in Hin.
  destruct Hin as [Heq|[]]. discriminate Heq.
Defined.

(** X8: with [MONGO_URI] set to the empty string the CSV loader raises as
    if the variable were absent, before it sends anything; the two other
    loaders take the empty string as the default of [--mongo-uri] and
    connect. *)
Theorem mongo_uri_empty `{WktLoader.GeoLib} {RT : Runtime} (environ : gmap string string) :
  environ !! "MONGO_URI"%string = Some ""%string ->
  (forall bulk_write a rows,
     CsvLoader.main bulk_write environ a rows = ([], Raise EnvironmentError))
  /\ (forall json_loads bulk_write a f, exists ops r,
        GeoJsonLoader.main json_loads bulk_write environ a f
        = (Mongo.MongoClient (default ""%string (GeoJsonLoader.mongo_uri a)) :: ops, r))
  /\ (forall bulk_write a rd, exists ops r,
        WktLoader.main bulk_write environ a rd
        = (Mongo.MongoClient (default ""%string (WktLoader.mongo_uri a)) :: ops, r)).
Proof.
  intros Henv. split; [|split].
  - intros bw a rows. unfold CsvLoader.main. by rewrite Henv.
  - intros jl bw a f. unfold GeoJsonLoader.main, GeoJsonLoader.args_mongo_uri,
      GeoJsonLoader.default_mongo_uri. rewrite Henv. simpl default at 2.
    destruct (GeoJsonLoader.batch_iter _ _) as [bs stop].
    destruct (Mongo.write_batches _ _ _ _ _ _) as [ops r].
    simpl. eauto.
  - intros bw a rd. unfold WktLoader.main, WktLoader.args_mongo_uri,
      WktLoader.default_mongo_uri. rewrite Henv. simpl default at 2.
    destruct (WktLoader.batch_iter _ _) as [bs stop].
    destruct (Mongo.write_batches _ _ _ _ _ _) as [ops r].
    simpl. eauto.
Qed.

(** The environment with an empty [MONGO_URI]. *)
Lemma mongo_uri_empty_witness :
  (forall bulk_write a rows,
     CsvLoader.main bulk_write {[ "MONGO_URI"%string := ""%string ]} a rows
     = ([], Raise EnvironmentError))
  /\ (forall json_loads bulk_write a f, exists ops r,
        GeoJsonLoader.main json_loads bulk_write {[ "MONGO_URI"%string := ""%string ]} a f
        = (Mongo.MongoClient (default ""%string (GeoJsonLoader.mongo_uri a)) :: ops, r))
  /\ (forall bulk_write a rd, exists ops r,
        WktLoader.main (H := WktLoader.Sample.points) bulk_write
          {[ "MONGO_URI"%string := ""%string ]} a rd
        = (Mongo.MongoClient (default ""%string (WktLoader.mongo_uri a)) :: ops, r)).
Proof.
  apply (mongo_uri_empty (H := WktLoader.Sample.points)
           {[ "MONGO_URI"%string := ""%string ]}).
  vm_compute. reflexivity.
Defined.

(** ** The GeoJSON stream *)

Lemma normalize_feature_not_feature o gf fl keep :
  GeoJsonLoader.is_feature o = false ->
  GeoJsonLoader.normalize_feature o gf fl keep = Raise ValueError.
Proof.
  intros Hf. destruct o; try done.
  unfold GeoJsonLoader.normalize_feature. by rewrite Hf.
Qed.

Lemma yield_each_features gf fl keep (pre rest : list pyobj) :
  Forall (fun o => GeoJsonLoader.is_feature o = true) pre ->
  exists docs,
    Forall2 (fun feat d => GeoJsonLoader.normalize_feature feat gf fl keep = Ok d)
      pre docs
    /\ GeoJsonLoader.yield_each gf fl keep (pre ++ rest)
       = (docs ++ fst (GeoJsonLoader.yield_each gf fl keep rest),
          snd (GeoJsonLoader.yield_each gf fl keep rest)).
Proof.
  induction 1 as [|o pre Ho _ (docs & Hall & Hrun)]; simpl.
  - exists []. split; [constructor|].
    by destruct (GeoJsonLoader.yield_each gf fl keep rest).
  - destruct (normalize_feature_ok o gf fl keep Ho) as [d Hd].
    exists (d :: docs). split; [by constructor|].
    rewrite Hd, Hrun. done.
Qed.

Lemma feature_collection_obj (d : gmap string pyobj) (feats : list pyobj) gf fl keep :
  d !! "type"%string = Some (PyStr "FeatureCollection") ->
  d !! "features"%string = Some (PyList feats) ->
  GeoJsonLoader.yield_docs_from_obj gf fl keep (PyDict d)
  = GeoJsonLoader.yield_each gf fl keep feats.
Proof.
  intros Ht Hf. unfold GeoJsonLoader.yield_docs_from_obj,
    GeoJsonLoader.is_feature, GeoJsonLoader.is_feature_collection,
    GeoJsonLoader.dict_get.
  by rewrite Ht, Hf.
Qed.

(** X9: a FeatureCollection whose members are all Features gives one
    document per member, in the order of the members, and no error. *)
Theorem feature_collection_yields_each
    (json_loads : string -> result pyobj) (gf : string) (fl keep : bool)
    (f : list string) (d : gmap string pyobj) (feats : list pyobj) :
  json_loads (String.concat "" f) = Ok (PyDict d) ->
  d !! "type"%string = Some (PyStr "FeatureCollection") ->
  d !! "features"%string = Some (PyList feats) ->
  Forall (fun o => GeoJsonLoader.is_feature o = true) feats ->
  exists docs,
    GeoJsonLoader.yield_docs_from_geojson_stream json_loads gf fl keep f false
    = (docs, None)
    /\ Forall2 (fun feat doc => GeoJsonLoader.normalize_feature feat gf fl keep = Ok doc)
         feats docs.
Proof.
  intros Hparse Ht Hf Hall.
  destruct (yield_each_features gf fl keep feats [] Hall) as (docs & Hdocs & Hrun).
  exists docs. split; [|done].
  unfold GeoJsonLoader.yield_docs_from_geojson_stream. rewrite Hparse.
  rewrite (feature_collection_obj d feats gf fl keep Ht Hf).
  rewrite app_nil_r in Hrun. rewrite Hrun. simpl. by rewrite app_nil_r.
Qed.

(** A collection of two Features. *)
Lemma feature_collection_yields_each_witness :
  exists docs,
    GeoJsonLoader.yield_docs_from_geojson_stream
      (fun _ => Ok (PyDict sample_collection)) "geometry" false false ["{}"%string] false
    = (docs, None)
    /\ Forall2 (fun feat doc =>
                  GeoJsonLoader.normalize_feature feat "geometry" false false = Ok doc)
         [PyDict sample_feature; PyDict clashing_feature] docs.
Proof.
  apply (feature_collection_yields_each (fun _ => Ok (PyDict sample_collection))
           "geometry" false false ["{}"%string] sample_collection
           [PyDict sample_feature; PyDict clashing_feature]).
  - reflexivity.
  - vm_compute. reflexivity.
  - vm_compute. reflexivity.
  - repeat constructor.
Defined.

(** X10: a FeatureCollection with a member that is not a Feature raises a
    [ValueError] at that member, after the documents of the members before
    it; the members after it are not looked at.  (A bare array passes such
    a member over instead.) *)
Theorem feature_collection_bad_member
    (json_loads : string -> result pyobj) (gf : string) (fl keep : bool)
    (f : list string) (d : gmap string pyobj) (pre post : list pyobj) (bad : pyobj) :
  json_loads (String.concat "" f) = Ok (PyDict d) ->
  d !! "type"%string = Some (PyStr "FeatureCollection") ->
  d !! "features"%string = Some (PyList (pre ++ bad :: post)) ->
  Forall (fun o => GeoJsonLoader.is_feature o = true) pre ->
  GeoJsonLoader.is_feature bad = false ->
  exists docs,
    GeoJsonLoader.yield_docs_from_geojson_stream json_loads gf fl keep f false
    = (docs, Some ValueError)
    /\ Forall2 (fun feat doc => GeoJsonLoader.normalize_feature feat gf fl keep = Ok doc)
         pre docs.
Proof.
  intros Hparse Ht Hf Hall Hbad.
  destruct (yield_each_features gf fl keep pre (bad :: post) Hall)
    as (docs & Hdocs & Hrun).
  exists docs. split; [|done].
  unfold GeoJsonLoader.yield_docs_from_geojson_stream. rewrite Hparse.
  rewrite (feature_collection_obj d _ gf fl keep Ht Hf), Hrun.
  simpl. rewrite (normalize_feature_not_feature bad gf fl keep Hbad).
  simpl. by rewrite app_nil_r.
Qed.

(** A collection whose second member is a number. *)
Lemma feature_collection_bad_member_witness :
  exists docs,
    GeoJsonLoader.yield_docs_from_geojson_stream
      (fun _ => Ok (PyDict broken_collection)) "geometry" false false ["{}"%string] false
    = (docs, Some ValueError)
    /\ Forall2 (fun feat doc =>
                  GeoJsonLoader.normalize_feature feat "geometry" false false = Ok doc)
         [PyDict sample_feature] docs.
Proof.
  apply (feature_collection_bad_member (fun _ => Ok (PyDict broken_collection))
           "geometry" false false ["{}"%string] broken_collection
           [PyDict sample_feature] [PyDict clashing_feature] (PyInt 1)).
  - reflexivity.
  - vm_compute. reflexivity.
  - vm_compute. reflexivity.
  - repeat constructor.
  - reflexivity.
Defined.

(** X11: a parsed value that is neither a Feature, nor a FeatureCollection
    with a list of features, nor a list, ends the stream with a
    [ValueError] and no document, in the standard mode and, for a line, in
    the NDJSON mode. *)
Theorem unrecognised_input_raises
    (json_loads : string -> result pyobj) (gf : string) (fl keep : bool)
    (text : string) (obj : pyobj) :
  json_loads text = Ok obj ->
  GeoJsonLoader.is_feature obj = false ->
  GeoJsonLoader.is_feature_collection obj = false ->
  is_list obj = false ->
  (forall f, String.concat "" f = text ->
     GeoJsonLoader.yield_docs_from_geojson_stream json_loads gf fl keep f false
     = ([], Some ValueError))
  /\ (forall line rest, strip line = text -> text <> ""%string ->
        GeoJsonLoader.yield_docs_from_geojson_stream json_loads gf fl keep
          (line :: rest) true
        = ([], Some ValueError)).
Proof.
  intros Hparse Hf Hfc Hl.
  assert (Hobj : GeoJsonLoader.yield_docs_from_obj gf fl keep obj = ([], Some ValueError)).
  { unfold GeoJsonLoader.yield_docs_from_obj. rewrite Hf, Hfc. by destruct obj. }
  split.
  - intros f <-. unfold GeoJsonLoader.yield_docs_from_geojson_stream.
    by rewrite Hparse, Hobj.
  - intros line rest Hline Hne. apply String.eqb_neq in Hne.
    unfold GeoJsonLoader.yield_docs_from_geojson_stream. simpl.
    by rewrite Hline, Hne, Hparse, Hobj.
Qed.

(** A bare geometry object. *)
Lemma unrecognised_input_raises_witness :
  (forall f, String.concat "" f = "{}"%string ->
     GeoJsonLoader.yield_docs_from_geojson_stream
       (fun _ => Ok (PyDict {[ "type"%string := PyStr "Point" ]}))
       "geometry" false false f false
     = ([], Some ValueError))
  /\ (forall line rest, strip line = "{}"%string -> "{}"%string <> ""%string ->
        GeoJsonLoader.yield_docs_from_geojson_stream
          (fun _ => Ok (PyDict {[ "type"%string := PyStr "Point" ]}))
          "geometry" false false (line :: rest) true
        = ([], Some ValueError)).
Proof.
  apply (unrecognised_input_raises
           (fun _ => Ok (PyDict {[ "type"%string := PyStr "Point" ]}))
           "geometry" false false "{}" (PyDict {[ "type"%string := PyStr "Point" ]}));
    vm_compute; reflexivity.
Defined.

Lemma gen_seq_assoc {A} (g1 g2 g3 : gen A) :
  GeoJsonLoader.gen_seq (GeoJsonLoader.gen_seq g1 g2) g3
  = GeoJsonLoader.gen_seq g1 (GeoJsonLoader.gen_seq g2 g3).
Proof.
  destruct g1 as [l1 [e1|]], g2 as [l2 [e2|]], g3 as [l3 s3]; simpl; try done.
  by rewrite app_assoc.
Qed.

Lemma gen_seq_nil_l {A} (g : gen A) : GeoJsonLoader.gen_seq ([], None) g = g.
Proof. by destruct g. Qed.

(** X12: in the NDJSON mode the lines are handled one after the other and
    independently: the stream of two runs of lines is the stream of the
    first followed, if it ended without error, by the stream of the second.
    A line that is blank once stripped gives nothing, and a line that
    [json.loads] refuses ends the stream with the error of [json.loads]. *)
Theorem ndjson_lines_in_sequence
    (json_loads : string -> result pyobj) (gf : string) (fl keep : bool) :
  (forall l1 l2,
     GeoJsonLoader.yield_docs_from_geojson_stream json_loads gf fl keep (l1 ++ l2) true
     = GeoJsonLoader.gen_seq
         (GeoJsonLoader.yield_docs_from_geojson_stream json_loads gf fl keep l1 true)
         (GeoJsonLoader.yield_docs_from_geojson_stream json_loads gf fl keep l2 true))
  /\ (forall line rest, strip line = ""%string ->
        GeoJsonLoader.yield_docs_from_geojson_stream json_loads gf fl keep
          (line :: rest) true
        = GeoJsonLoader.yield_docs_from_geojson_stream json_loads gf fl keep rest true)
  /\ (forall line rest e, strip line <> ""%string ->
        json_loads (strip line) = Raise e ->
        GeoJsonLoader.yield_docs_from_geojson_stream json_loads gf fl keep
          (line :: rest) true
        = ([], Some e)).
Proof.
  unfold GeoJsonLoader.yield_docs_from_geojson_stream. split; [|split].
  - intros l1 l2. induction l1 as [|line l1 IH].
    + symmetry. exact (gen_seq_nil_l _).
    + simpl. destruct (String.eqb (strip line) ""); [done|].
      destruct (json_loads (strip line)); [|done].
      by rewrite IH, gen_seq_assoc.
  - intros line rest Hblank. simpl. by rewrite Hblank.
  - intros line rest e Hne Hfail. apply String.eqb_neq in Hne. simpl.
    by rewrite Hne, Hfail.
Qed.

(** A blank line and a line that is not JSON. *)
Lemma ndjson_lines_in_sequence_witness :
  GeoJsonLoader.yield_docs_from_geojson_stream sample_json_loads
    "geometry" false false ["  "%string; "[1, {}]"%string] true
  = GeoJsonLoader.yield_docs_from_geojson_stream sample_json_loads
      "geometry" false false ["[1, {}]"%string] true
  /\ GeoJsonLoader.yield_docs_from_geojson_stream sample_json_loads
       "geometry" false false [" x "%string; "[1, {}]"%string] true
     = ([], Some JSONDecodeError).
Proof.
  destruct (ndjson_lines_in_sequence sample_json_loads "geometry" false false)
    as (_ & Hblank & Hfail).
  split.
  - apply Hblank. vm_compute. reflexivity.
  - apply Hfail; vm_compute; [discriminate | reflexivity].
Defined.

(** ** Documents of Features *)

Ltac feature_id_cases keep fd :=
  destruct keep; [destruct (fd !! "id"%string) eqn:?|].

(** X13: properties that are missing, null or otherwise false as a truth
    value (false, 0, the empty string, list or object) count as the empty
    object: without flattening the document has [properties] set to the
    empty object, and with flattening it gets no field from them. *)
Theorem falsy_properties_become_empty (fd : gmap string pyobj)
    (geometry_field : string) (keep_id : bool) :
  GeoJsonLoader.is_feature (PyDict fd) = true ->
  truthy (default (PyDict ∅) (fd !! "properties"%string)) = false ->
  (exists doc : gmap string pyobj,
     GeoJsonLoader.normalize_feature (PyDict fd) geometry_field false keep_id = Ok doc
     /\ doc !! "properties"%string = Some (PyDict ∅))
  /\ (exists doc : gmap string pyobj,
        GeoJsonLoader.normalize_feature (PyDict fd) geometry_field true keep_id = Ok doc
        /\ forall k, k <> geometry_field -> k <> "_feature_id"%string ->
             doc !! k = None).
Proof.
  intros Hfeat Hfalsy.
  unfold GeoJsonLoader.normalize_feature. rewrite Hfeat. cbn [negb]. cbv zeta.
  rewrite Hfalsy. split; eexists; (split; [reflexivity|]).
  - feature_id_cases keep_id fd;
      rewrite ?lookup_insert_ne by done; by rewrite lookup_insert_eq.
  - intros k Hgf Hid.
    feature_id_cases keep_id fd;
      rewrite ?lookup_insert_ne by done;
      rewrite lookup_union, lookup_empty, lookup_insert_ne by done;
      by rewrite lookup_empty.
Qed.

(** A Feature without properties. *)
Lemma falsy_properties_become_empty_witness :
  (exists doc : gmap string pyobj,
     GeoJsonLoader.normalize_feature (PyDict {[ "type"%string := PyStr "Feature" ]})
       "geometry" false true = Ok doc
     /\ doc !! "properties"%string = Some (PyDict ∅))
  /\ (exists doc : gmap string pyobj,
        GeoJsonLoader.normalize_feature (PyDict {[ "type"%string := PyStr "Feature" ]})
          "geometry" true true = Ok doc
        /\ forall k, k <> "geometry"%string -> k <> "_feature_id"%string ->
             doc !! k = None).
Proof.
  apply (falsy_properties_become_empty {[ "type"%string := PyStr "Feature" ]}
           "geometry" true); vm_compute; reflexivity.
Defined.

(** X14: when the properties of a Feature are not an object (a list, a
    string, a number other than zero, true), asking for flattening changes
    nothing: the document is the one made without flattening, with the
    properties under [properties]. *)
Theorem flatten_ignored_for_non_object (fd : gmap string pyobj) (p : pyobj)
    (geometry_field : string) (keep_id : bool) :
  GeoJsonLoader.is_feature (PyDict fd) = true ->
  fd !! "properties"%string = Some p ->
  truthy p = true -> is_dict p = false ->
  GeoJsonLoader.normalize_feature (PyDict fd) geometry_field true keep_id
  = GeoJsonLoader.normalize_feature (PyDict fd) geometry_field false keep_id
  /\ exists doc : gmap string pyobj,
       GeoJsonLoader.normalize_feature (PyDict fd) geometry_field true keep_id = Ok doc
       /\ doc !! "properties"%string = Some p.
Proof.
  intros Hfeat Hprops Htrue Hdict.
  unfold GeoJsonLoader.normalize_feature. rewrite Hfeat, Hprops. cbn [negb].
  cbv zeta. change (default (PyDict ∅) (Some p)) with p. rewrite Htrue.
  destruct p; try discriminate; (split; [reflexivity|]);
    (eexists; split; [reflexivity|]);
    feature_id_cases keep_id fd;
    rewrite ?lookup_insert_ne by done; by rewrite lookup_insert_eq.
Qed.

(** A Feature whose properties are the list [[1]]. *)
Lemma flatten_ignored_for_non_object_witness :
  GeoJsonLoader.normalize_feature (PyDict list_properties_feature) "geometry" true false
  = GeoJsonLoader.normalize_feature (PyDict list_properties_feature) "geometry" false false
  /\ exists doc : gmap string pyobj,
       GeoJsonLoader.normalize_feature (PyDict list_properties_feature)
         "geometry" true false = Ok doc
       /\ doc !! "properties"%string = Some (PyList [PyInt 1]).
Proof.
  apply (flatten_ignored_for_non_object list_properties_feature (PyList [PyInt 1])
           "geometry" false); vm_compute; reflexivity.
Defined.

(** X15: the document of a Feature holds the geometry (null when the
    Feature has none) under the geometry field, unless that field is called
    [properties] or [_feature_id] or, with flattening, like a property; it
    has [_feature_id] from the Feature whenever the id is to be kept and
    the Feature has one; and no other member of the Feature, such as [type]
    or [bbox], is copied: a field that is neither the geometry field, nor
    [properties], nor [_feature_id], nor, with flattening, a key of the
    properties object is absent.  Without flattening the keys of the
    properties play no part. *)
Theorem feature_document_fields (fd : gmap string pyobj)
    (geometry_field : string) (flatten_properties keep_id : bool) :
  GeoJsonLoader.is_feature (PyDict fd) = true ->
  exists doc : gmap string pyobj,
    GeoJsonLoader.normalize_feature (PyDict fd) geometry_field flatten_properties keep_id
    = Ok doc
    /\ (geometry_field <> "properties"%string ->
        geometry_field <> "_feature_id"%string ->
        (flatten_properties = true ->
         forall pd, fd !! "properties"%string = Some (PyDict pd) ->
                    pd !! geometry_field = None) ->
        doc !! geometry_field = Some (default PyNone (fd !! "geometry"%string)))
    /\ (forall id, keep_id = true -> fd !! "id"%string = Some id ->
          doc !! "_feature_id"%string = Some id)
    /\ (forall k, k <> geometry_field -> k <> "properties"%string ->
          k <> "_feature_id"%string ->
          (flatten_properties = true ->
           forall pd, fd !! "properties"%string = Some (PyDict pd) -> pd !! k = None) ->
          doc !! k = None).
Proof.
  intros Hfeat.
  unfold GeoJsonLoader.normalize_feature. rewrite Hfeat. cbn [negb]. cbv zeta.
  set (props := if truthy (default (PyDict ∅) (fd !! "properties"%string))
                then default (PyDict ∅) (fd !! "properties"%string)
                else PyDict ∅).
  assert (Hprops : forall pd, props = PyDict pd ->
            pd = ∅ \/ fd !! "properties"%string = Some (PyDict pd)).
  { intros pd. unfold props.
    destruct (truthy _); [|intros [= <-]; by left].
    destruct (fd !! "properties"%string) as [q|]; simpl.
    - intros ->. by right.
    - intros [= <-]. by left. }
  eexists. split; [reflexivity|]. split; [|split].
  - intros Hp Hi Hclash. unfold GeoJsonLoader.dict_get.
    assert (Hbase : (match flatten_properties, props with
                     | true, PyDict pd => pd ∪ <[geometry_field := default PyNone (fd !! "geometry"%string)]> ∅
                     | _, _ => <["properties"%string := props]>
                                 (<[geometry_field := default PyNone (fd !! "geometry"%string)]> ∅)
                     end : gmap string pyobj) !! geometry_field
                    = Some (default PyNone (fd !! "geometry"%string))).
    { destruct flatten_properties, props eqn:Ep;
        rewrite ?lookup_insert_ne by done; try by rewrite lookup_insert_eq.
      rewrite lookup_union_r; [by rewrite lookup_insert_eq|].
      destruct (Hprops _ eq_refl) as [->|Hfd];
        [apply lookup_empty | by apply (Hclash eq_refl)]. }
    feature_id_cases keep_id fd; rewrite ?lookup_insert_ne by done; exact Hbase.
  - intros id -> ->. by rewrite lookup_insert_eq.
  - intros k Hgf Hp Hi Hclash.
    assert (Hbase : (match flatten_properties, props with
                     | true, PyDict pd => pd ∪ <[geometry_field := GeoJsonLoader.dict_get fd "geometry"]> ∅
                     | _, _ => <["properties"%string := props]>
                                 (<[geometry_field := GeoJsonLoader.dict_get fd "geometry"]> ∅)
                     end : gmap string pyobj) !! k = None).
    { destruct flatten_properties, props eqn:Ep;
        rewrite ?lookup_insert_ne by done; try apply lookup_empty.
      rewrite lookup_union, lookup_insert_ne, lookup_empty by done.
      destruct (Hprops _ eq_refl) as [->|Hfd];
        [by rewrite lookup_empty | by rewrite (Hclash eq_refl _ Hfd)]. }
    feature_id_cases keep_id fd; rewrite ?lookup_insert_ne by done; exact Hbase.
Qed.

(** The Feature with an id and the property [name]. *)
Lemma feature_document_fields_witness :
  exists doc : gmap string pyobj,
    GeoJsonLoader.normalize_feature (PyDict sample_feature) "geometry" true true = Ok doc
    /\ doc !! "geometry"%string = Some PyNone
    /\ doc !! "_feature_id"%string = Some (PyInt 7)
    /\ doc !! "type"%string = None.
Proof.
  destruct (feature_document_fields sample_feature "geometry" true true)
    as (doc & Hrun & Hgeom & Hid & Hother); [vm_compute; reflexivity|].
  assert (Hpd : forall pd, sample_feature !! "properties"%string = Some (PyDict pd) ->
                  pd = sample_properties).
  { intros pd Hpd. vm_compute in Hpd. injection Hpd as <-. vm_compute. reflexivity. }
  exists doc. split; [exact Hrun|]. split; [|split].
  - apply Hgeom; [discriminate | discriminate |].
    intros _ pd Hp. rewrite (Hpd pd Hp). vm_compute. reflexivity.
  - apply (Hid (PyInt 7)); [reflexivity | vm_compute; reflexivity].
  - apply Hother; [discriminate | discriminate | discriminate |].
    intros _ pd Hp. rewrite (Hpd pd Hp). vm_compute. reflexivity.
Defined.

(** ** Results of the value coercion *)

Lemma decimal_not_null_token t :
  t <> ""%string -> forallb_str isdecimal_char t = true ->
  WktLoader.is_null_token t = false.
Proof.
  destruct t as [|c r]; [done|]. intros _. simpl.
  rewrite andb_true_iff. intros [Hc _]. revert Hc r. each_char c.
Qed.

Lemma int_check_some {RT : Runtime} t z :
  int_check t = Some z ->
  integer_guard t = true /\ py_int t = Ok z /\ (0 <= z)%Z.
Proof.
  unfold int_check, integer_guard.
  destruct (isdigit t && _) eqn:Hguard; [|done].
  destruct (py_int t) as [z'|e] eqn:Hint; [|done]. intros [= <-].
  split; [done|]. split; [done|].
  apply andb_true_iff in Hguard as [Hd _]. rewrite (digits_py_int t Hd) in Hint.
  destruct (forallb_str isdecimal_char t); [|done].
  destruct (over_digit_limit _); [done|]. injection Hint as <-. lia.
Qed.

Lemma plain_integer_within_limit {RT : Runtime} t :
  plain_integer t = true ->
  over_digit_limit (N.of_nat (String.length t)) = false ->
  int_check t = Some (Z.of_N (digits_value 0 t))
  /\ int_refused_float t = None
  /\ csv_null_check t = false /\ wkt_null_check t = false.
Proof.
  unfold plain_integer. rewrite !andb_true_iff. intros [[Hne Hdec] Hguard] Hover.
  apply negb_true_iff in Hne. pose proof Hne as Hne'. apply String.eqb_neq in Hne'.
  pose proof (decimal_isdigit t Hne' Hdec) as Hd.
  unfold int_check, int_refused_float, integer_guard, csv_null_check, wkt_null_check.
  rewrite Hd, Hguard, (digits_py_int t Hd), Hdec, Hover, Hne.
  by rewrite (decimal_not_null_token t Hne' Hdec).
Qed.

Lemma precedence_int {RT : Runtime} null_check s z :
  coerce_by_precedence null_check (Some s) = PyInt z ->
  int_check (strip s) = Some z.
Proof.
  unfold coerce_by_precedence. destruct (null_check (strip s)); [done|].
  destruct (int_check (strip s)) as [z'|]; [by intros [= <-]|].
  by destruct (float_check (strip s)).
Qed.

(** X16: a string that, stripped, is made of the digits 0 to 9 without a
    leading zero (or is the single digit 0), and has no more digits than
    the interpreter allows, is returned by both [coerce_value] functions as
    the integer it writes.  And an integer that either function returns is
    [int()] of the stripped string, which passed the integer check; it is
    never negative, a signed string such as [-5] being left to the float
    branch. *)
Theorem coerce_value_integer {RT : Runtime} (s : string) (z : Z) :
  (plain_integer (strip s) = true ->
   over_digit_limit (N.of_nat (String.length (strip s))) = false ->
   CsvLoader.coerce_value (Some s) = Ok (PyInt (Z.of_N (digits_value 0 (strip s))))
   /\ WktLoader.coerce_value (Some s) = Ok (PyInt (Z.of_N (digits_value 0 (strip s)))))
  /\ (CsvLoader.coerce_value (Some s) = Ok (PyInt z)
      \/ WktLoader.coerce_value (Some s) = Ok (PyInt z) ->
      integer_guard (strip s) = true /\ py_int (strip s) = Ok z /\ (0 <= z)%Z).
Proof.
  rewrite csv_coerce_order_eq, wkt_coerce_precedence. split.
  - intros Hp Hover.
    destruct (plain_integer_within_limit _ Hp Hover) as (Hint & Hrf & Hc & Hw).
    unfold csv_coerce_order, coerce_by_precedence. by rewrite Hrf, Hc, Hw, Hint.
  - intros [[= H]|[= H]]; apply int_check_some.
    + unfold csv_coerce_order in H.
      destruct (int_refused_float (strip s)); [done|]. by apply precedence_int in H.
    + by apply precedence_int in H.
Qed.

(** The string [" 42 "]. *)
Lemma coerce_value_integer_witness :
  CsvLoader.coerce_value (Some " 42 "%string)
  = Ok (PyInt (Z.of_N (digits_value 0 (strip " 42 "))))
  /\ WktLoader.coerce_value (Some " 42 "%string)
     = Ok (PyInt (Z.of_N (digits_value 0 (strip " 42 ")))).
Proof.
  apply (proj1 (coerce_value_integer " 42 " 42)); vm_compute; reflexivity.
Defined.

Lemma precedence_none {RT : Runtime} null_check v :
  coerce_by_precedence null_check v = PyNone
  <-> v = None \/ exists s, v = Some s /\ null_check (strip s) = true.
Proof.
  destruct v as [s|]; simpl; [|split; [by left | done]].
  split.
  - destruct (null_check (strip s)) eqn:Hn; [right; eauto|].
    destruct (int_check _); [done|]. by destruct (float_check _).
  - intros [?|(s' & [= <-] & ->)]; done.
Qed.

Lemma csv_coerce_order_none {RT : Runtime} v :
  csv_coerce_order v = PyNone
  <-> v = None \/ exists s, v = Some s /\ strip s = ""%string.
Proof.
  destruct v as [s|]; [|split; [by left | done]].
  unfold csv_coerce_order.
  destruct (int_refused_float (strip s)) as [f|] eqn:Hrf.
  - split; [done|]. intros [?|(s' & [= <-] & Hblank)]; [done|].
    by rewrite Hblank in Hrf.
  - rewrite precedence_none. unfold csv_null_check. split.
    + intros [?|(s' & [= <-] & Hn)]; [by left|].
      right. exists s. split; [done|]. by apply String.eqb_eq.
    + intros [?|(s' & [= <-] & Hn)]; [by left|].
      right. exists s. split; [done|]. by apply String.eqb_eq.
Qed.

(** X17: the CSV loader's [coerce_value] returns null exactly for [None]
    and for the strings that are blank once stripped; the WKT loader's does
    so for these and for the strings that read [NULL], [N/A], [NA] or
    [NONE] once stripped and put in upper case. *)
Theorem coerce_value_null {RT : Runtime} (v : option string) :
  (CsvLoader.coerce_value v = Ok PyNone
   <-> v = None \/ exists s, v = Some s /\ strip s = ""%string)
  /\ (WktLoader.coerce_value v = Ok PyNone
      <-> v = None
          \/ exists s, v = Some s
                       /\ (strip s = ""%string
                           \/ WktLoader.is_null_token (strip s) = true)).
Proof.
  rewrite csv_coerce_order_eq, wkt_coerce_precedence. split.
  - split.
    + intros [= H]. by apply csv_coerce_order_none.
    + intros H. f_equal. by apply csv_coerce_order_none.
  - split.
    + intros [= H]. apply precedence_none in H as [?|(s & -> & Hn)]; [by left|].
      right. exists s. split; [done|].
      unfold wkt_null_check in Hn. apply orb_true_iff in Hn as [Hb|Ht];
        [left; by apply String.eqb_eq | by right].
    + intros H. f_equal. apply precedence_none.
      destruct H as [?|(s & -> & Hs)]; [by left|].
      right. exists s. split; [done|]. unfold wkt_null_check.
      apply orb_true_iff. destruct Hs as [Hb|Ht];
        [left; by apply String.eqb_eq | by right].
Qed.

Lemma precedence_string {RT : Runtime} null_check s t :
  coerce_by_precedence null_check (Some s) = PyStr t ->
  t = strip s /\ null_check t = false
  /\ py_float (replace "," "" t) = Raise ValueError.
Proof.
  unfold coerce_by_precedence.
  destruct (null_check (strip s)) eqn:Hn; [done|].
  destruct (int_check _); [done|].
  unfold float_check. destruct (py_float _) as [f|e] eqn:Hf; [done|].
  intros [= <-]. by rewrite (py_float_raises _ _ Hf) in Hf.
Qed.

(** X18: a string that either [coerce_value] returns is the input
    stripped of its surrounding white space, and it is not empty.  The WKT
    loader returns a string only when [float()] refuses it, once its commas
    are removed; the CSV loader also when the string passed the integer
    check and [int()] refused it. *)
Theorem coerce_value_string {RT : Runtime} (s t : string) :
  (CsvLoader.coerce_value (Some s) = Ok (PyStr t) ->
   t = strip s /\ t <> ""%string
   /\ (py_float (replace "," "" t) = Raise ValueError
       \/ (integer_guard t = true /\ py_int t = Raise ValueError)))
  /\ (WktLoader.coerce_value (Some s) = Ok (PyStr t) ->
      t = strip s /\ t <> ""%string
      /\ py_float (replace "," "" t) = Raise ValueError).
Proof.
  rewrite csv_coerce_order_eq, wkt_coerce_precedence. split.
  - intros [= H]. unfold csv_coerce_order in H.
    destruct (int_refused_float (strip s)) as [f|] eqn:Hrf.
    + injection H as <-. split; [done|]. split.
      * intros Hblank. by rewrite Hblank in Hrf.
      * right. unfold int_refused_float in Hrf.
        destruct (integer_guard (strip s)); [|done]. split; [done|].
        destruct (py_int (strip s)) as [z|e] eqn:Hint; [done|].
        by rewrite (py_int_raises _ _ Hint).
    + apply precedence_string in H as (-> & Hn & Hf).
      split; [done|]. split; [by apply String.eqb_neq | by left].
  - intros [= H]. apply precedence_string in H as (-> & Hn & Hf).
    split; [done|]. split; [|done].
    unfold wkt_null_check in Hn. apply orb_false_iff in Hn as [Hn _].
    by apply String.eqb_neq.
Qed.

(** The string [" abc "]. *)
Lemma coerce_value_string_witness :
  "abc"%string = strip " abc " /\ "abc"%string <> ""%string
  /\ py_float (replace "," "" "abc") = Raise ValueError.
Proof.
  apply (proj2 (coerce_value_string " abc " "abc")). vm_compute. reflexivity.
Defined.

Lemma zero_padded_checks {RT : Runtime} t :
  zero_padded t = true ->
  t <> ""%string /\ forallb_str isdecimal_char t = true /\ int_check t = None.
Proof.
  unfold zero_padded. rewrite !andb_true_iff. intros [[Hdec Hlen] Hzero].
  split; [|split; [done|]].
  - intros ->. done.
  - unfold int_check. by rewrite Hlen, Hzero, andb_false_r.
Qed.

Lemma zero_padded_not_refused {RT : Runtime} t :
  zero_padded t = true -> int_refused_float t = None.
Proof.
  unfold zero_padded, int_refused_float, integer_guard.
  rewrite !andb_true_iff. intros [[_ Hlen] Hzero].
  by rewrite Hlen, Hzero, andb_false_r.
Qed.

(** X19: a string that, stripped, is two or more decimal digits starting
    with a zero (a zero-padded code such as a ZIP code) is returned by both
    [coerce_value] functions as the float nearest to the number it writes;
    the leading zeros are lost and the result is not a string. *)
Theorem coerce_value_zero_padded {RT : Runtime} (s : string) :
  zero_padded (strip s) = true ->
  CsvLoader.coerce_value (Some s)
  = Ok (PyFloat (decimal_to_float false (digits_value 0 (strip s)) 0))
  /\ WktLoader.coerce_value (Some s)
     = Ok (PyFloat (decimal_to_float false (digits_value 0 (strip s)) 0)).
Proof.
  intros Hz. destruct (zero_padded_checks _ Hz) as (Hne & Hdec & Hint).
  rewrite csv_coerce_order_eq, wkt_coerce_precedence.
  unfold csv_coerce_order. rewrite (zero_padded_not_refused _ Hz).
  unfold coerce_by_precedence, csv_null_check, wkt_null_check, float_check.
  rewrite Hint, (decimal_py_float _ Hne Hdec), (decimal_not_null_token _ Hne Hdec).
  apply String.eqb_neq in Hne. by rewrite Hne.
Qed.

(** The ZIP code [00501]. *)
Lemma coerce_value_zero_padded_witness :
  CsvLoader.coerce_value (Some "00501"%string)
  = Ok (PyFloat (decimal_to_float false (digits_value 0 (strip "00501")) 0))
  /\ WktLoader.coerce_value (Some "00501"%string)
     = Ok (PyFloat (decimal_to_float false (digits_value 0 (strip "00501")) 0)).
Proof. apply (coerce_value_zero_padded "00501"). vm_compute. reflexivity. Defined.

Lemma lstrip_by_head p s :
  match lstrip_by p s with
  | EmptyString => True
  | String c _ => p c = false
  end.
Proof.
  induction s as [|c r IH]; simpl; [done|].
  destruct (p c) eqn:Hc; [done|]. simpl. done.
Qed.

Lemma rstrip_by_idem p s : rstrip_by p (rstrip_by p s) = rstrip_by p s.
Proof.
  induction s as [|c r IH]; simpl; [done|].
  destruct (rstrip_by p r) as [|c' r'] eqn:Hr.
  - destruct (p c) eqn:Hc; simpl; [done|]. by rewrite Hc.
  - simpl in *. by rewrite IH.
Qed.

Lemma rstrip_by_keeps_head p c r :
  p c = false -> exists r', rstrip_by p (String c r) = String c r'.
Proof.
  intros Hc. simpl. destruct (rstrip_by p r); rewrite ?Hc; eauto.
Qed.

Lemma strip_by_idem p s : strip_by p (strip_by p s) = strip_by p s.
Proof.
  unfold strip_by. pose proof (lstrip_by_head p s) as Hhead.
  destruct (lstrip_by p s) as [|c r]; [done|].
  destruct (rstrip_by_keeps_head p c r Hhead) as [r' Hr'].
  rewrite Hr'. cbn [lstrip_by]. rewrite Hhead, <- Hr'. apply rstrip_by_idem.
Qed.

(** X20: white space around a value never matters: both [coerce_value]
    functions return for a string what they return for the string
    stripped. *)
Theorem coerce_value_ignores_outer_space {RT : Runtime} (s : string) :
  CsvLoader.coerce_value (Some s) = CsvLoader.coerce_value (Some (strip s))
  /\ WktLoader.coerce_value (Some s) = WktLoader.coerce_value (Some (strip s)).
Proof.
  rewrite !csv_coerce_order_eq, !wkt_coerce_precedence.
  unfold csv_coerce_order, coerce_by_precedence, strip. by rewrite !strip_by_idem.
Qed.

(** ** The shape of normalized keys *)

Lemma lstrip_by_length p s : String.length (lstrip_by p s) <= String.length s.
Proof.
  induction s as [|c r IH]; simpl; [done|]. destruct (p c); simpl; lia.
Qed.

Lemma rstrip_by_length p s : String.length (rstrip_by p s) <= String.length s.
Proof.
  induction s as [|c r IH]; simpl; [done|].
  destruct (rstrip_by p r); [destruct (p c)|]; simpl in *; lia.
Qed.

Lemma map_str_length f s : String.length (map_str f s) = String.length s.
Proof. induction s as [|c r IH]; simpl; [done | by rewrite IH]. Qed.

Lemma filter_str_length p s : String.length (filter_str p s) <= String.length s.
Proof.
  induction s as [|c r IH]; simpl; [done|]. destruct (p c); simpl; lia.
Qed.

Lemma sub_space_runs_length b s :
  String.length (CsvLoader.sub_space_runs_from b s) <= String.length s.
Proof.
  revert b. induction s as [|c r IH]; intros b; simpl; [done|].
  destruct (CsvLoader.re_space c); [destruct b|]; simpl;
    match goal with |- context [CsvLoader.sub_space_runs_from ?x r] =>
      pose proof (IH x) end; lia.
Qed.

(** X21: a normalized key is made of word characters only (letters,
    digits, underscore), each of them its own lower case; it has no white
    space and no punctuation, and it is never longer than the header it
    comes from. *)
Theorem normalize_key_shape (k : string) :
  forallb_str (fun c => CsvLoader.re_word c
                        && negb (CsvLoader.re_space c)
                        && Ascii.eqb (lower_char c) c)
    (CsvLoader.normalize_key k) = true
  /\ String.length (CsvLoader.normalize_key k) <= String.length k.
Proof.
  split.
  - apply (forallb_str_impl normal_char); [|apply normalize_key_result].
    intros c Hc. pose proof (normal_char_not_space c Hc) as Hs.
    unfold normal_char in Hc. apply andb_true_iff in Hc as [Hw Hl].
    unfold CsvLoader.re_space. by rewrite Hw, Hs, Hl.
  - unfold CsvLoader.normalize_key, CsvLoader.sub_space_runs,
      CsvLoader.sub_non_word_space, lower, strip, strip_by.
    etransitivity; [apply sub_space_runs_length|].
    etransitivity; [apply filter_str_length|].
    rewrite map_str_length.
    etransitivity; [apply rstrip_by_length | apply lstrip_by_length].
Qed.

(** ** Opening compressed files *)

Lemma endswith_shorter s p :
  String.length s < String.length p -> endswith s p = false.
Proof.
  induction s as [|c r IH]; intros Hlen.
  - destruct p; [simpl in Hlen; lia | done].
  - cbn [endswith]. rewrite IH by (simpl in Hlen; lia).
    rewrite orb_false_r. apply String.eqb_neq. intros <-. lia.
Qed.

Lemma string_length_append (s t : string) :
  String.length (s ++ t)%string = String.length s + String.length t.
Proof.
  induction s as [|c r IH]; [done|].
  change (String c r ++ t)%string with (String c (r ++ t)%string).
  simpl. by rewrite IH.
Qed.

Lemma endswith_same_length (stem t p : string) :
  String.length t = String.length p ->
  endswith (stem ++ t)%string p = String.eqb t p.
Proof.
  intros Hlen. induction stem as [|c r IH].
  - change ("" ++ t)%string with t. destruct t as [|c t'].
    + destruct p; [done | discriminate].
    + cbn [endswith]. rewrite endswith_shorter by (simpl in Hlen; lia).
      apply orb_false_r.
  - change (String c r ++ t)%string with (String c (r ++ t)%string).
    cbn [endswith]. rewrite IH.
    assert (String.eqb (String c (r ++ t)%string) p = false) as ->; [|done].
    apply String.eqb_neq. intros <-. simpl in Hlen.
    rewrite string_length_append in Hlen. lia.
Qed.

Lemma lower_append (s t : string) : lower (s ++ t)%string = (lower s ++ lower t)%string.
Proof.
  unfold lower. induction s as [|c r IH]; [done|].
  change (String c r ++ t)%string with (String c (r ++ t)%string).
  simpl. by rewrite IH.
Qed.

Lemma endswith_lower_gz path :
  endswith path ".gz" = true -> endswith (lower path) ".gz" = true.
Proof.
  induction path as [|c r IH]; [done|].
  cbn [endswith]. intros H. apply orb_true_iff in H as [H|H].
  - apply String.eqb_eq in H. by rewrite H.
  - unfold lower. cbn [map_str endswith]. fold (lower r).
    rewrite (IH H). apply orb_true_r.
Qed.

(** X22: the three loaders do not agree on what a compressed file is.
    They read a path ending in [.gz] through gzip; the GeoJSON and the WKT
    loader compare the suffix without regard to case, the CSV loader does
    not, so a path ending in [.GZ] is read through gzip by the former and
    as plain text by the latter. *)
Theorem gzip_suffix_case (path : string) :
  (CsvLoader.open_maybe_gzip path = GzipText ->
   GeoJsonLoader.open_maybe_gzip path = GzipText)
  /\ WktLoader.open_maybe_gzip path = GeoJsonLoader.open_maybe_gzip path
  /\ CsvLoader.open_maybe_gzip (path ++ ".gz")%string = GzipText
  /\ CsvLoader.open_maybe_gzip (path ++ ".GZ")%string = PlainText
  /\ GeoJsonLoader.open_maybe_gzip (path ++ ".GZ")%string = GzipText.
Proof.
  unfold CsvLoader.open_maybe_gzip, GeoJsonLoader.open_maybe_gzip,
    WktLoader.open_maybe_gzip.
  split; [|split; [done|split; [|split]]].
  - destruct (endswith path ".gz") eqn:H; [|done].
    by rewrite (endswith_lower_gz path H).
  - by rewrite endswith_same_length.
  - by rewrite endswith_same_length.
  - by rewrite lower_append, endswith_same_length.
Qed.

(** ** Rows of the CSV loader *)

Lemma field_map_from (names : list string) (nk : bool) (m : gmap string string) k :
  foldl (fun m name => <[name := if nk then CsvLoader.normalize_key name else name]> m)
        m names !! k
  = if decide (k ∈ names)
    then Some (if nk then CsvLoader.normalize_key k else k)
    else m !! k.
Proof.
  revert m. induction names as [|n names IH]; intros m; simpl.
  - destruct (decide (k ∈ [])) as [Hin|_]; [by apply elem_of_nil in Hin | done].
  - rewrite IH. destruct (decide (k ∈ names)) as [Hin|Hnin].
    + rewrite decide_True by (by right). done.
    + destruct (decide (k = n)) as [->|Hne].
      * rewrite decide_True by (by left). by rewrite lookup_insert_eq.
      * rewrite decide_False by (rewrite elem_of_cons; intros [?|?]; done).
        by rewrite lookup_insert_ne.
Qed.

Lemma field_map_lookup (names : list string) (nk : bool) k :
  CsvLoader.field_map names nk !! k
  = if decide (k ∈ names)
    then Some (if nk then CsvLoader.normalize_key k else k)
    else None.
Proof. unfold CsvLoader.field_map. by rewrite field_map_from, lookup_empty. Qed.



Lemma row_doc_untouched {RT : Runtime} fm (items : list (string * option string))
    (doc d : gmap string pyobj) K :
  CsvLoader.row_doc fm items doc = inl d ->
  (forall k v, (k, v) ∈ items -> fm !! k <> Some K) ->
  d !! K = doc !! K.
Proof.
  revert doc. induction items as [|[k v] rest IH]; intros doc; simpl.
  - by intros [= <-].
  - intros Hrun Hother.
    destruct (fm !! k) as [key|] eqn:Hk; [|done].
    destruct (CsvLoader.coerce_value v) as [x|e]; [|done].
    rewrite (IH _ Hrun) by (intros k' v' Hin; apply (Hother k' v'); by right).
    apply lookup_insert_ne. intros ->. by apply (Hother k v ltac:(by left)).
Qed.

Lemma row_doc_last_wins {RT : Runtime} fm (pre post : list (string * option string))
    (k : string) (v : option string) (doc d : gmap string pyobj) K :
  CsvLoader.row_doc fm (pre ++ (k, v) :: post) doc = inl d ->
  fm !! k = Some K ->
  (forall k' v', (k', v') ∈ post -> fm !! k' <> Some K) ->
  exists x, CsvLoader.coerce_value v = Ok x /\ d !! K = Some x.
Proof.
  revert doc. induction pre as [|[k0 v0] pre IH]; intros doc; simpl.
  - intros Hrun Hk Hpost. rewrite Hk in Hrun.
    destruct (CsvLoader.coerce_value v) as [x|e]; [|done].
    exists x. split; [done|].
    by rewrite (row_doc_untouched _ _ _ _ _ Hrun Hpost), lookup_insert_eq.
  - intros Hrun Hk Hpost.
    destruct (fm !! k0) as [key|]; [|done].
    destruct (CsvLoader.coerce_value v0) as [x0|e]; [|done].
    by apply (IH _ Hrun).
Qed.

Lemma row_doc_origin {RT : Runtime} fm (items : list (string * option string))
    (doc d : gmap string pyobj) K x :
  CsvLoader.row_doc fm items doc = inl d ->
  d !! K = Some x ->
  doc !! K = Some x
  \/ exists k v, (k, v) ∈ items /\ fm !! k = Some K
                 /\ CsvLoader.coerce_value v = Ok x.
Proof.
  revert doc. induction items as [|[k v] rest IH]; intros doc; simpl.
  - intros [= <-] Hd. by left.
  - intros Hrun Hd.
    destruct (fm !! k) as [key|] eqn:Hk; [|done].
    destruct (CsvLoader.coerce_value v) as [y|e] eqn:Hv; [|done].
    destruct (IH _ Hrun Hd) as [Hdoc|(k' & v' & Hin & Hk' & Hv')].
    + destruct (decide (key = K)) as [->|Hne].
      * rewrite lookup_insert_eq in Hdoc. injection Hdoc as ->.
        right. exists k, v. split; [by left | done].
      * rewrite lookup_insert_ne in Hdoc by done. by left.
    + right. exists k', v'. split; [by right | done].
Qed.

Lemma read_rows_lookup {RT : Runtime} fm (rs : list (list (string * option string)))
    docs stop (i : nat) (doc : gmap string pyobj) :
  CsvLoader.read_rows fm rs = (docs, stop) ->
  docs !! i = Some doc ->
  exists row, rs !! i = Some row /\ CsvLoader.row_doc fm row ∅ = inl doc.
Proof.
  revert docs i. induction rs as [|row rest IH]; intros docs i; simpl.
  - intros [= <- <-]. by rewrite lookup_nil.
  - destruct (CsvLoader.row_doc fm row ∅) as [d|e] eqn:Hrow;
      [|intros [= <- <-]; by rewrite lookup_nil].
    destruct (CsvLoader.read_rows fm rest) as [ds stop'] eqn:Hrest.
    intros [= <- <-]. destruct i as [|i]; simpl.
    + intros [= <-]. eauto.
    + by apply IH.
Qed.




(** X24: in the document of a row, the value of an item of the row's
    dict, coerced, is under the key of the item (normalized if asked),
    provided no item after it in the dict has the same key once normalized;
    when the keys of two items collide, the later item is the one kept.
    The dict has one item per distinct name of the header, so for a header
    of distinct names this is about the columns: of two columns whose names
    normalize to the same key, the later is kept. *)
Theorem read_csv_rows_last_item_wins {RT : Runtime} (names : list string)
    (rows : list (list (string * option string))) (normalize_keys : bool)
    docs stop (i : nat) (doc : gmap string pyobj)
    (pre post : list (string * option string)) (k : string) (v : option string) :
  let key name := if normalize_keys then CsvLoader.normalize_key name else name in
  CsvLoader.read_csv_rows
    {| CsvLoader.fieldnames := Some names; CsvLoader.rows := rows |} normalize_keys
  = (docs, stop) ->
  docs !! i = Some doc ->
  rows !! i = Some (pre ++ (k, v) :: post) ->
  (forall k' v', (k', v') ∈ post -> key k' <> key k) ->
  exists x, CsvLoader.coerce_value v = Ok x /\ doc !! key k = Some x.
Proof.
  intros key Hrun Hdoc Hrow Hpost.
  unfold CsvLoader.read_csv_rows in Hrun. simpl in Hrun.
  destruct (read_rows_lookup _ _ _ _ _ _ Hrun Hdoc) as (row & Hrow' & Hbuild).
  rewrite Hrow in Hrow'. injection Hrow' as <-.
  apply (row_doc_last_wins _ _ _ _ _ _ _ _ Hbuild).
  - rewrite field_map_lookup. destruct (decide (k ∈ names)) as [_|Hnin]; [done|].
    exfalso. revert Hbuild. clear -Hnin. generalize (∅ : gmap string pyobj).
    induction pre as [|[k0 v0] pre IH]; intros doc0; simpl.
    + rewrite field_map_lookup, decide_False by done. done.
    + destruct (_ !! k0); [|done].
      destruct (CsvLoader.coerce_value v0); [|done]. apply IH.
  - intros k' v' Hin. rewrite field_map_lookup.
    destruct (decide (k' ∈ names)); [|done].
    intros [= Heq]. by apply (Hpost k' v' Hin).
Qed.

(** Of [Street Name] and [street_name], the second is kept. *)
Lemma read_csv_rows_last_item_wins_witness :
  exists x,
    CsvLoader.coerce_value (Some "2nd Ave"%string) = Ok x
    /\ ({[ "street_name"%string := PyStr "2nd Ave"; "n"%string := PyInt 42 ]}
          : gmap string pyobj) !! CsvLoader.normalize_key "street_name" = Some x.
Proof.
  apply (read_csv_rows_last_item_wins clashing_header [clashing_row] true
           [{[ "street_name"%string := PyStr "2nd Ave"; "n"%string := PyInt 42 ]}]
           None 0 _ [("Street Name", Some "Main St")]%string
           [("n", Some "42")]%string "street_name"%string (Some "2nd Ave"%string)).
  - vm_compute. reflexivity.
  - reflexivity.
  - reflexivity.
  - intros k' v' Hin. apply list_elem_of_In in Hin. simpl in Hin.
    destruct Hin as [[= <- _]|[]]. vm_compute. discriminate.
Defined.

(** X25: every document of the CSV loader has only null, integer, float
    and string values, under keys that come from the header; with
    normalization every key is a normalized name, which normalization
    leaves unchanged. *)
Theorem read_csv_rows_documents {RT : Runtime} (names : list string)
    (rows : list (list (string * option string))) (normalize_keys : bool)
    docs stop (doc : gmap string pyobj) (K : string) (x : pyobj) :
  CsvLoader.read_csv_rows
    {| CsvLoader.fieldnames := Some names; CsvLoader.rows := rows |} normalize_keys
  = (docs, stop) ->
  doc ∈ docs -> doc !! K = Some x ->
  is_scalar x = true
  /\ (exists name, name ∈ names
        /\ K = if normalize_keys then CsvLoader.normalize_key name else name)
  /\ (normalize_keys = true -> CsvLoader.normalize_key K = K).
Proof.
  intros Hrun Hin HK. unfold CsvLoader.read_csv_rows in Hrun. simpl in Hrun.
  apply list_elem_of_lookup in Hin as [i Hi].
  destruct (read_rows_lookup _ _ _ _ _ _ Hrun Hi) as (row & _ & Hbuild).
  destruct (row_doc_origin _ _ _ _ _ _ Hbuild HK)
    as [Hempty|(k & v & _ & Hk & Hv)]; [by rewrite lookup_empty in Hempty|].
  rewrite field_map_lookup in Hk.
  destruct (decide (k ∈ names)) as [Hnames|]; [|done]. injection Hk as <-.
  split; [|split].
  - rewrite csv_coerce_order_eq in Hv. injection Hv as <-.
    apply csv_coerce_order_scalar.
  - eauto.
  - intros ->. apply normalize_key_normal, normalize_key_result.
Qed.

(** The document of the row above, and its key [street_name]. *)
Lemma read_csv_rows_documents_witness :
  is_scalar (PyStr "2nd Ave") = true
  /\ (exists name, name ∈ clashing_header
        /\ "street_name"%string = if true then CsvLoader.normalize_key name else name)
  /\ (true = true -> CsvLoader.normalize_key "street_name" = "street_name"%string).
Proof.
  apply (read_csv_rows_documents clashing_header [clashing_row] true
           [{[ "street_name"%string := PyStr "2nd Ave"; "n"%string := PyInt 42 ]}]
           None
           {[ "street_name"%string := PyStr "2nd Ave"; "n"%string := PyInt 42 ]}
           "street_name" (PyStr "2nd Ave")).
  - vm_compute. reflexivity.
  - by left.
  - vm_compute. reflexivity.
Defined.

(** ** Documents of the WKT loader *)









(** ** A whole run of the GeoJSON loader *)

(** X28: the GeoJSON loader, given a FeatureCollection whose members are
    all Features, a batch size of at least one and a server that inserts
    every document, writes one document per Feature, in order, after the
    connection, the drop and the index; the total it reports is the number
    of Features, whatever the batch size. *)
Theorem geojson_main_writes_every_feature
    (json_loads : string -> result pyobj) bulk_write
    (environ : gmap string string) (a : GeoJsonLoader.args) (f : list string)
    (d : gmap string pyobj) (feats : list pyobj) :
  GeoJsonLoader.ndjson a = false ->
  json_loads (String.concat "" f) = Ok (PyDict d) ->
  d !! "type"%string = Some (PyStr "FeatureCollection") ->
  d !! "features"%string = Some (PyList feats) ->
  Forall (fun o => GeoJsonLoader.is_feature o = true) feats ->
  (1 <= GeoJsonLoader.batch_size a)%Z ->
  all_inserted bulk_write ->
  exists bs,
    GeoJsonLoader.main json_loads bulk_write environ a f
    = (Mongo.MongoClient (GeoJsonLoader.args_mongo_uri environ a)
       :: (if GeoJsonLoader.drop a
           then [Mongo.DropCollection (GeoJsonLoader.db a) (GeoJsonLoader.collection a)]
           else [])
       ++ (if GeoJsonLoader.create_index a
           then [Mongo.CreateIndex (GeoJsonLoader.db a) (GeoJsonLoader.collection a)
                   (GeoJsonLoader.geometry_field a)]
           else [])
       ++ map (Mongo.BulkWrite (GeoJsonLoader.db a) (GeoJsonLoader.collection a)) bs,
       Ok (Z.of_nat (length feats)))
    /\ Forall2 (fun feat doc =>
                  GeoJsonLoader.normalize_feature feat (GeoJsonLoader.geometry_field a)
                    (GeoJsonLoader.flatten_properties a) (GeoJsonLoader.keep_feature_id a)
                  = Ok doc)
         feats (concat bs).
Proof.
  intros Hnd Hparse Ht Hf Hall HB Hins.
  destruct (yield_each_features (GeoJsonLoader.geometry_field a)
              (GeoJsonLoader.flatten_properties a) (GeoJsonLoader.keep_feature_id a)
              feats [] Hall) as (docs & Hdocs & Hrun).
  rewrite app_nil_r in Hrun. simpl in Hrun. rewrite app_nil_r in Hrun.
  destruct (batch_loop_spec (GeoJsonLoader.batch_size a) docs [] HB ltac:(simpl; lia))
    as (bs & Hbatch & Hcat & _ & _).
  simpl in Hcat. exists bs. split; [|by rewrite Hcat].
  unfold GeoJsonLoader.main, GeoJsonLoader.yield_docs_from_geojson_stream.
  rewrite Hnd, Hparse, (feature_collection_obj d feats _ _ _ Ht Hf), Hrun.
  unfold GeoJsonLoader.batch_iter. simpl fst. simpl snd.
  change (@GeoJsonLoader.batch_iter_loop) with (@CsvLoader.batch_loop).
  rewrite Hbatch, (write_batches_all_inserted _ _ _ _ _ _ Hins), Hcat.
  rewrite (Forall2_length _ _ _ Hdocs). simpl. by rewrite <- app_assoc.
Qed.

(** The collection of two Features, in batches of two. *)
Lemma geojson_main_writes_every_feature_witness :
  exists bs,
    GeoJsonLoader.main (fun _ => Ok (PyDict sample_collection))
      (fun docs => Ok (Z.of_nat (length docs))) ∅ sample_geojson_args ["{}"%string]
    = (Mongo.MongoClient (GeoJsonLoader.args_mongo_uri ∅ sample_geojson_args)
       :: (if GeoJsonLoader.drop sample_geojson_args
           then [Mongo.DropCollection (GeoJsonLoader.db sample_geojson_args)
                   (GeoJsonLoader.collection sample_geojson_args)]
           else [])
       ++ (if GeoJsonLoader.create_index sample_geojson_args
           then [Mongo.CreateIndex (GeoJsonLoader.db sample_geojson_args)
                   (GeoJsonLoader.collection sample_geojson_args)
                   (GeoJsonLoader.geometry_field sample_geojson_args)]
           else [])
       ++ map (Mongo.BulkWrite (GeoJsonLoader.db sample_geojson_args)
                 (GeoJsonLoader.collection sample_geojson_args)) bs,
       Ok (Z.of_nat (length [PyDict sample_feature; PyDict clashing_feature])))
    /\ Forall2 (fun feat doc =>
                  GeoJsonLoader.normalize_feature feat
                    (GeoJsonLoader.geometry_field sample_geojson_args)
                    (GeoJsonLoader.flatten_properties sample_geojson_args)
                    (GeoJsonLoader.keep_feature_id sample_geojson_args)
                  = Ok doc)
         [PyDict sample_feature; PyDict clashing_feature] (concat bs).
Proof.
  apply (geojson_main_writes_every_feature (fun _ => Ok (PyDict sample_collection))
           (fun docs => Ok (Z.of_nat (length docs))) ∅ sample_geojson_args
           ["{}"%string] sample_collection
           [PyDict sample_feature; PyDict clashing_feature]).
  - reflexivity.
  - reflexivity.
  - vm_compute. reflexivity.
  - vm_compute. reflexivity.
  - repeat constructor.
  - simpl. lia.
  - intros docs. reflexivity.
Defined.

